(** * pdf_ocr: a model of [main.py] and the properties of its extraction policy

    [main.py] scans the folder [input] for PDF files, extracts the text of
    every page (directly when the page carries text, through EasyOCR
    otherwise), writes one text file per document into a timestamped folder
    below [output] and moves the original there.

    The script is a sequence of calls into pdfplumber, EasyOCR, pathlib,
    shutil and logging.  Those are modelled as an explicit environment: a
    file system, a log sink, a console and the journal of library calls, all
    threaded through a state-and-exception monad.  The functions of
    [main.py] are transcribed statement by statement over that monad. *)

From Stdlib Require Import String Ascii NArith Decimal Lia.
From stdpp Require Import base decidable option numbers list.

Local Open Scope N_scope.
Local Open Scope nat_scope.
Local Open Scope list_scope.

(** ** Python strings

    A [str] is a sequence of Unicode code points. *)

Definition pystr := list N.

(** An ASCII literal of the source. *)
Definition lit (s : string) : pystr :=
  map N_of_ascii (list_ascii_of_string s).

(** The character [\n]. *)
Definition nl : pystr := [10%N].

(** [str.isspace] on one code point: the white space of CPython's
    [_PyUnicode_IsWhitespace]. *)
Definition isspace (c : N) : bool :=
  ((9 <=? c) && (c <=? 13) || (28 <=? c) && (c <=? 32)
   || (c =? 0x85) || (c =? 0xA0) || (c =? 0x1680)
   || (0x2000 <=? c) && (c <=? 0x200A)
   || (c =? 0x2028) || (c =? 0x2029) || (c =? 0x202F)
   || (c =? 0x205F) || (c =? 0x3000))%N.

Fixpoint lstrip (s : pystr) : pystr :=
  match s with
  | [] => []
  | c :: s' => if isspace c then lstrip s' else s
  end.

Definition rstrip (s : pystr) : pystr := rev (lstrip (rev s)).

(** [s.strip()] *)
Definition strip (s : pystr) : pystr := rstrip (lstrip s).

(** [sep.join(l)] *)
Fixpoint join (sep : pystr) (l : list pystr) : pystr :=
  match l with
  | [] => []
  | x :: xs => match xs with
               | [] => x
               | _ :: _ => x ++ sep ++ join sep xs
               end
  end.

Fixpoint uint_codes (d : Decimal.uint) : pystr :=
  match d with
  | Nil => []
  | D0 d => 48%N :: uint_codes d
  | D1 d => 49%N :: uint_codes d
  | D2 d => 50%N :: uint_codes d
  | D3 d => 51%N :: uint_codes d
  | D4 d => 52%N :: uint_codes d
  | D5 d => 53%N :: uint_codes d
  | D6 d => 54%N :: uint_codes d
  | D7 d => 55%N :: uint_codes d
  | D8 d => 56%N :: uint_codes d
  | D9 d => 57%N :: uint_codes d
  end.

(** [str(n)] for a non-negative [int], as an f-string renders it. *)
Definition str_of_nat (n : nat) : pystr := uint_codes (Nat.to_uint n).

(** [s.rfind(c)]; [None] stands for [-1]. *)
Fixpoint rfind (c : N) (s : pystr) : option nat :=
  match s with
  | [] => None
  | x :: s' => match rfind c s' with
               | Some i => Some (S i)
               | None => if (x =? c)%N then Some 0 else None
               end
  end.

(** [s.endswith(t)] *)
Definition endswith (s t : pystr) : bool :=
  bool_decide (drop (length s - length t) s = t).

(** Python truthiness of a [str]. *)
Definition nonempty {A} (l : list A) : bool :=
  match l with [] => false | _ :: _ => true end.

(** ** Exceptions

    [exn] stands for an instance of [Exception], which is what the handlers
    of the script catch; the classes the script distinguishes, or that the
    modelled libraries raise, are listed, every other one is
    [OtherException].  What is no [Exception] ([KeyboardInterrupt],
    [SystemExit]) ends the process from outside and is not modelled. *)

Inductive exn_class :=
| ImportError
| ModuleNotFoundError
| FileNotFoundError
| FileExistsError
| NotADirectoryError
| IsADirectoryError
| PermissionError
| UnicodeEncodeError
| ShutilError
| OtherException.

Record exn := Exn { exn_cls : exn_class; exn_str : pystr }.

(** [isinstance(e, ImportError)]: [ModuleNotFoundError] derives from it. *)
Definition is_ImportError (e : exn) : bool :=
  match exn_cls e with
  | ImportError | ModuleNotFoundError => true
  | _ => false
  end.

Definition is_FileNotFoundError (e : exn) : bool :=
  match exn_cls e with
  | FileNotFoundError => true
  | _ => false
  end.

(** What a call yields: a value, or an exception. *)
Inductive result (A : Type) :=
| Ok (a : A)
| Raise (e : exn).
Arguments Ok {A} a.
Arguments Raise {A} e.

(** ** Documents, as pdfplumber and EasyOCR present them

    A pixel array is identified with what [reader.readtext(_, detail=0)]
    reads in it, an image with what [np.array] makes of it, a page with what
    [extract_text()] and [to_image(resolution=r).original] yield, a document
    with what [pdf.pages] yields. *)

Record ndarray := { readtext : result (list pystr) }.

Record PILImage := { np_array : result ndarray }.

Record Page := {
  extract_text : result (option pystr);
  to_image : nat -> result PILImage
}.

Record PDF := { pdf_pages : result (list Page) }.

(** ** The file system

    A path lists its components from the last one (the name) up to the
    working directory, so that [p / n] is [n :: p], [p.name] the head and
    [p.parent] the tail. *)

Definition path := list pystr.

Definition Path (s : string) : path := [lit s].

(** [pdf_path.name] *)
Definition path_name (p : path) : pystr :=
  match p with
  | [] => []
  | n :: _ => n
  end.

(** [pdf_path.stem]: the name up to its last dot, unless that dot is the
    first or the last character. *)
Definition path_stem (p : path) : pystr :=
  let name := path_name p in
  match rfind 46%N name with
  | Some i => if bool_decide (0 < i < length name - 1) then take i name else name
  | None => name
  end.

(** The content of a file: text as [write_text] leaves it, or other data,
    identified with what [pdfplumber.open] makes of it. *)
Inductive content :=
| Text (s : pystr)
| Data (as_pdf : result PDF).

Inductive node :=
| Dir
| File (c : content).

(** The entries below the working directory, in the order in which the
    operating system lists them. *)
Definition FS := list (path * node).

Definition at_path (p : path) (e : path * node) : bool := bool_decide (e.1 = p).

Definition fs_lookup (p : path) (fs : FS) : option node :=
  match p with
  | [] => Some Dir
  | _ :: _ => snd <$> find (at_path p) fs
  end.

Definition fs_exists (p : path) (fs : FS) : bool :=
  match fs_lookup p fs with Some _ => true | None => false end.

Definition fs_is_dir (p : path) (fs : FS) : bool :=
  match fs_lookup p fs with Some Dir => true | _ => false end.

(** Creates the entry, or replaces it where it stands. *)
Definition fs_put (p : path) (n : node) (fs : FS) : FS :=
  if fs_exists p fs
  then map (fun e => if at_path p e then (p, n) else e) fs
  else fs ++ [(p, n)].

(** [q] is [d] or lies below it. *)
Definition within (d q : path) : bool := bool_decide (d `suffix_of` q).

(** [q], an entry at or below [src], as it is called once [src] is [dst]. *)
Definition rebase (src dst q : path) : path :=
  if within src q then take (length q - length src) q ++ dst else q.

(** [os.rename] on the entries: what was at or below [dst] goes, what is at
    or below [src] is renamed; nothing happens when [src] is [dst]. *)
Definition fs_rename (src dst : path) (fs : FS) : FS :=
  if bool_decide (src = dst) then fs
  else map (fun e => (rebase src dst e.1, e.2))
           (List.filter (fun e => negb (within dst e.1)) fs).

(** [input_dir.glob("*.pdf")]: the entries of the directory whose name ends
    in [.pdf], in listing order. *)
Definition glob_match (d : path) (e : path * node) : bool :=
  match e.1 with
  | [] => false
  | n :: par => bool_decide (par = d) && endswith n (lit ".pdf")
  end.

Definition glob_pdf (d : path) (fs : FS) : list path :=
  map fst (List.filter (glob_match d) fs).

(** ** The environment of a run *)

Inductive level :=
| INFO
| WARNING
| ERROR.

(** The calls of the extraction and of its persistence; those on a page
    carry the number the loop gives the page. *)
Inductive call :=
| Call_open (p : path)
| Call_extract_text (page_num : nat)
| Call_to_image (page_num resolution : nat)
| Call_np_array (page_num : nat)
| Call_readtext (page_num : nat)
| Call_write_text (p : path) (data : pystr)
| Call_move (src dst : path).

(** What a run leaves behind, in the order in which it happens: the calls
    above, the records the handlers of the logger [pdf_ocr] receive, the
    lines printed. *)
Inductive event :=
| Called (c : call)
| Logged (lvl : level) (msg : pystr)
| Printed (msg : pystr).

Record World := {
  w_fs : FS;
  (** paths on which the operating system refuses creation, writing and
      renaming *)
  w_readonly : list path;
  (** [datetime.now().strftime("%Y%m%d_%H%M%S")] *)
  w_now : pystr;
  (** the working directory, as [resolve()] renders it *)
  w_cwd : pystr;
  (** the names bound in [sys.modules] *)
  w_sys_modules : list pystr;
  (** what the first import of an installed module yields; a module that is
      not listed is not installed *)
  w_site : list (pystr * result unit);
  (** what [easyocr.Reader(['en'], gpu=False)] yields *)
  w_Reader : result unit;
  w_trace : list event
}.

Definition set_fs (f : FS -> FS) (w : World) : World :=
  {| w_fs := f (w_fs w); w_readonly := w_readonly w; w_now := w_now w;
     w_cwd := w_cwd w; w_sys_modules := w_sys_modules w; w_site := w_site w;
     w_Reader := w_Reader w; w_trace := w_trace w |}.

Definition set_sys_modules (f : list pystr -> list pystr) (w : World) : World :=
  {| w_fs := w_fs w; w_readonly := w_readonly w; w_now := w_now w;
     w_cwd := w_cwd w; w_sys_modules := f (w_sys_modules w); w_site := w_site w;
     w_Reader := w_Reader w; w_trace := w_trace w |}.

Definition set_trace (f : list event -> list event) (w : World) : World :=
  {| w_fs := w_fs w; w_readonly := w_readonly w; w_now := w_now w;
     w_cwd := w_cwd w; w_sys_modules := w_sys_modules w; w_site := w_site w;
     w_Reader := w_Reader w; w_trace := f (w_trace w) |}.

(** The world once [evs] have happened. *)
Definition after (evs : list event) (w : World) : World :=
  set_trace (fun t => t ++ evs) w.

(** ** Computations: state passing with exceptions

    A raised exception leaves the state as it was when it was raised:
    nothing is rolled back. *)

Definition M (A : Type) : Type := World -> result A * World.

#[global] Instance M_ret : MRet M := fun A a w => (Ok a, w).

#[global] Instance M_bind : MBind M := fun A B k m w =>
  match m w with
  | (Ok a, w') => k a w'
  | (Raise e, w') => (Raise e, w')
  end.

Definition raise {A} (e : exn) : M A := fun w => (Raise e, w).

(** [try: body  except Exception as e: handler] *)
Definition try_except {A} (body : M A) (handler : exn -> M A) : M A :=
  fun w => match body w with
           | (Ok a, w') => (Ok a, w')
           | (Raise e, w') => handler e w'
           end.

Definition gets {A} (f : World -> A) : M A := fun w => (Ok (f w), w).

(** What the environment yields, a value or an exception; the state is not
    changed. *)
Definition lift {A} (r : World -> result A) : M A := fun w => (r w, w).

Definition modify (f : World -> World) : M unit := fun w => (Ok tt, f w).

Definition record (e : event) : M unit := modify (after [e]).

(** A call: recorded, then its value or its exception. *)
Definition called {A} (c : call) (r : result A) : M A :=
  record (Called c);; lift (fun _ => r).

(** ** pathlib, shutil, logging and the import system *)

Definition readonly (p : path) (w : World) : bool :=
  bool_decide (p ∈ w_readonly w).

(** What [os.mkdir(p)] yields. *)
Definition mkdir_result (p : path) (w : World) : result unit :=
  match p with
  | [] => Raise (Exn FileExistsError (lit "File exists"))
  | _ :: parent =>
      if fs_exists p (w_fs w)
      then Raise (Exn FileExistsError (lit "File exists"))
      else match fs_lookup parent (w_fs w) with
           | None => Raise (Exn FileNotFoundError (lit "No such file or directory"))
           | Some (File _) => Raise (Exn NotADirectoryError (lit "Not a directory"))
           | Some Dir =>
               if readonly p w
               then Raise (Exn PermissionError (lit "Permission denied"))
               else Ok tt
           end
  end.

(** [os.mkdir(p)] *)
Definition os_mkdir (p : path) : M unit :=
  lift (mkdir_result p);;
  modify (set_fs (fun fs => fs ++ [(p, Dir)])).

(** [p.mkdir(parents=False, exist_ok=exist_ok)]: [FileNotFoundError] is
    raised again; another [OSError] of [os.mkdir] is passed over when
    [exist_ok] is set and [p] is a directory. *)
Definition mkdir_flat (exist_ok : bool) (p : path) : M unit :=
  try_except (os_mkdir p)
    (fun e =>
       if is_FileNotFoundError e
       then raise e
       else is_dir ← gets (fun w => fs_is_dir p (w_fs w));
            if exist_ok && is_dir then mret tt else raise e).

(** [p.mkdir(parents=parents, exist_ok=exist_ok)]: on [FileNotFoundError]
    with [parents] set, the parent is made with
    [mkdir(parents=True, exist_ok=True)] and [p] tried again. *)
Fixpoint Path_mkdir (parents exist_ok : bool) (p : path) : M unit :=
  try_except (os_mkdir p)
    (fun e =>
       if is_FileNotFoundError e
       then match p with
            | [] => raise e
            | _ :: parent =>
                if parents
                then Path_mkdir true true parent;; mkdir_flat exist_ok p
                else raise e
            end
       else is_dir ← gets (fun w => fs_is_dir p (w_fs w));
            if exist_ok && is_dir then mret tt else raise e).

(** What [open(p, mode)] yields, for a mode that writes, before the file
    is created or opened. *)
Definition open_result (p : path) (w : World) : result unit :=
  match p with
  | [] => Raise (Exn IsADirectoryError (lit "Is a directory"))
  | _ :: parent =>
      match fs_lookup parent (w_fs w) with
      | None => Raise (Exn FileNotFoundError (lit "No such file or directory"))
      | Some (File _) => Raise (Exn NotADirectoryError (lit "Not a directory"))
      | Some Dir =>
          if fs_is_dir p (w_fs w)
          then Raise (Exn IsADirectoryError (lit "Is a directory"))
          else if readonly p w
          then Raise (Exn PermissionError (lit "Permission denied"))
          else Ok tt
      end
  end.

Definition open_check (p : path) : M unit := lift (open_result p).

(** UTF-8 encodes every code point but the surrogates. *)
Definition utf8_encodable (s : pystr) : bool :=
  forallb (fun c => negb ((0xD800 <=? c) && (c <=? 0xDFFF))%N) s.

(** [p.write_text(data, encoding="utf-8")]: the file is opened for writing,
    which creates or empties it, then [data] is encoded and written. *)
Definition write_text (p : path) (data : pystr) : M unit :=
  record (Called (Call_write_text p data));;
  open_check p;;
  modify (set_fs (fs_put p (File (Text []))));;
  if utf8_encodable data
  then modify (set_fs (fs_put p (File (Text data))))
  else raise (Exn UnicodeEncodeError (lit "surrogates not allowed")).

(** What [os.rename(src, dst)] yields. *)
Definition rename_result (src dst : path) (w : World) : result unit :=
  match fs_lookup src (w_fs w), dst with
  | None, _ | _, [] => Raise (Exn FileNotFoundError (lit "No such file or directory"))
  | Some n, _ :: parent =>
      if bool_decide (src = dst) then Ok tt
      else if within src dst
      then Raise (Exn OtherException (lit "Invalid argument"))
      else match fs_lookup parent (w_fs w) with
      | None => Raise (Exn FileNotFoundError (lit "No such file or directory"))
      | Some (File _) => Raise (Exn NotADirectoryError (lit "Not a directory"))
      | Some Dir =>
          match n, fs_lookup dst (w_fs w) with
          | File _, Some Dir => Raise (Exn IsADirectoryError (lit "Is a directory"))
          | Dir, Some (File _) => Raise (Exn NotADirectoryError (lit "Not a directory"))
          | _, _ =>
              if readonly src w || readonly dst w
              then Raise (Exn PermissionError (lit "Permission denied"))
              else Ok tt
          end
      end
  end.

(** [os.rename(src, dst)] *)
Definition os_rename (src dst : path) : M unit :=
  lift (rename_result src dst);;
  modify (set_fs (fs_rename src dst)).

(** [shutil.move(src, dst)]: into [dst] when that is a directory, else a
    rename; where the rename is refused, so is the copy shutil falls back
    to. *)
Definition shutil_move (src dst : path) : M unit :=
  record (Called (Call_move src dst));;
  dst_is_dir ← gets (fun w => fs_is_dir dst (w_fs w));
  if (dst_is_dir : bool)
  then let real_dst := path_name src :: dst in
       taken ← gets (fun w => fs_exists real_dst (w_fs w));
       if (taken : bool)
       then raise (Exn ShutilError (lit "Destination path already exists"))
       else os_rename src real_dst
  else os_rename src dst.

(** What pdfplumber makes of the entry at [p]. *)
Definition parse_pdf (p : path) (fs : FS) : result PDF :=
  match fs_lookup p fs with
  | None => Raise (Exn FileNotFoundError (lit "No such file or directory"))
  | Some Dir => Raise (Exn IsADirectoryError (lit "Is a directory"))
  | Some (File (Text _)) =>
      Raise (Exn OtherException (lit "No /Root object! - Is this really a PDF?"))
  | Some (File (Data r)) => r
  end.

(** [pdfplumber.open(p)] *)
Definition pdfplumber_open (p : path) : M PDF :=
  record (Called (Call_open p));;
  lift (fun w => parse_pdf p (w_fs w)).

(** A logger is known by the file its file handler appends to. *)
Record Logger := { log_file : path }.

(** [logging.FileHandler(log_file, encoding="utf-8")] opens the file for
    appending, which creates it when it is missing. *)
Definition FileHandler (p : path) : M unit :=
  open_check p;;
  modify (set_fs (fun fs => if fs_exists p fs then fs else fs ++ [(p, File (Text []))])).

Definition logger_info (logger : Logger) (msg : pystr) : M unit :=
  record (Logged INFO msg).

Definition logger_warning (logger : Logger) (msg : pystr) : M unit :=
  record (Logged WARNING msg).

Definition logger_error (logger : Logger) (msg : pystr) : M unit :=
  record (Logged ERROR msg).

Definition print (msg : pystr) : M unit := record (Printed msg).

(** [import name]: bound at once when [sys.modules] has the name, else the
    module is looked up and run, and bound when that succeeds. *)
Definition py_import (name : pystr) : M unit := fun w =>
  if bool_decide (name ∈ w_sys_modules w) then (Ok tt, w)
  else match find (fun m : pystr * result unit => bool_decide (m.1 = name)) (w_site w) with
       | None => (Raise (Exn ModuleNotFoundError (lit "No module named " ++ name)), w)
       | Some (_, Ok _) => (Ok tt, set_sys_modules (fun l => l ++ [name]) w)
       | Some (_, Raise e) => (Raise e, w)
       end.

(** [p] below the working directory [cwd], as a string. *)
Definition resolved (cwd : pystr) (p : path) : pystr :=
  cwd ++ concat (map (fun c => lit "/" ++ c) (rev p)).

(** [str(p.resolve())] *)
Definition resolve (p : path) : M pystr :=
  gets (fun w => resolved (w_cwd w) p).

(** [try: body  except cls: handler]: an exception of another class
    propagates. *)
Definition try_except_of {A} (cls : exn -> bool) (body : M A) (handler : M A) : M A :=
  try_except body (fun e => if cls e then handler else raise e).

(** ** main.py *)

Definition imports : list pystr :=
  [lit "logging"; lit "shutil"; lit "datetime"; lit "pathlib";
   lit "easyocr"; lit "pdfplumber"; lit "PIL"; lit "io"; lit "numpy"].

(** Lines 8 to 20: the imports, then
    [reader = easyocr.Reader(['en'], gpu=False)]. *)
Definition module_top : M unit :=
  foldr (fun name rest => py_import name;; rest) (mret tt) imports;;
  lift w_Reader.

Definition setup_folders : M (path * path) :=
  let input_dir := Path "input" in
  let output_dir := Path "output" in
  Path_mkdir false true input_dir;;
  Path_mkdir false true output_dir;;
  mret (input_dir, output_dir).

Definition get_timestamp_folder (output_dir : path) : M (path * path) :=
  timestamp ← gets w_now;
  let timestamp_dir := timestamp :: output_dir in
  let original_dir := lit "original" :: timestamp_dir in
  let processed_dir := lit "processed" :: timestamp_dir in
  Path_mkdir true true original_dir;;
  Path_mkdir true true processed_dir;;
  mret (original_dir, processed_dir).

Definition setup_logging (timestamp_dir : path) : M Logger :=
  let log_file := lit "ocr_log.txt" :: timestamp_dir in
  FileHandler log_file;;
  mret {| log_file := log_file |}.

Definition check_dependencies (logger : Logger) : M bool :=
  try_except_of is_ImportError
    (py_import (lit "easyocr");;
     logger_info logger
       (0x2713%N :: lit " EasyOCR available (pure Python - no system dependencies needed)");;
     mret true)
    (logger_error logger
       (0x274C%N :: lit " EasyOCR not found. Install with: uv sync");;
     mret false).

(** [f"\n--- Page {page_num} ---\n"] *)
Definition direct_marker (page_num : nat) : pystr :=
  nl ++ lit "--- Page " ++ str_of_nat page_num ++ lit " ---" ++ nl.

(** [f"\n--- Page {page_num} (OCR) ---\n"] *)
Definition ocr_marker (page_num : nat) : pystr :=
  nl ++ lit "--- Page " ++ str_of_nat page_num ++ lit " (OCR) ---" ++ nl.

(** [text and text.strip()], as a condition; [None] is Python's [None]. *)
Definition has_text (text : option pystr) : bool :=
  match text with
  | None => false
  | Some s => nonempty s && nonempty (strip s)
  end.

Definition text_of (text : option pystr) : pystr :=
  match text with
  | None => []
  | Some s => s
  end.

(** Lines 101 to 115: the OCR of one page; yields [full_text] as the
    statements leave it. *)
Definition ocr_page (logger : Logger) (page_num : nat) (page : Page)
    (full_text : pystr) : M pystr :=
  try_except
    (pil_image ← called (Call_to_image page_num 150) (to_image page 150);
     img_array ← called (Call_np_array page_num) (np_array pil_image);
     results ← called (Call_readtext page_num) (readtext img_array);
     if nonempty results
     then let ocr_text := join nl results in
          mret (full_text ++ ocr_marker page_num ++ ocr_text)
     else logger_warning logger (lit "No text found on page " ++ str_of_nat page_num);;
          mret full_text)
    (fun e =>
       logger_warning logger
         (lit "Could not OCR page " ++ str_of_nat page_num ++ lit ": " ++ exn_str e);;
       mret full_text).

(** Lines 94 to 115: the body of the loop over the pages. *)
Definition page_body (logger : Logger) (page_num : nat) (page : Page)
    (full_text : pystr) : M pystr :=
  text ← called (Call_extract_text page_num) (extract_text page);
  if has_text text
  then mret (full_text ++ direct_marker page_num ++ text_of text)
  else ocr_page logger page_num page full_text.

(** [for page_num, page in enumerate(pages, page_num): ...] *)
Fixpoint pages_loop (logger : Logger) (page_num : nat) (pages : list Page)
    (full_text : pystr) : M pystr :=
  match pages with
  | [] => mret full_text
  | page :: rest =>
      full_text' ← page_body logger page_num page full_text;
      pages_loop logger (S page_num) rest full_text'
  end.

Definition extract_text_from_pdf (pdf_path : path) (logger : Logger) : M pystr :=
  try_except
    (let full_text := [] in
     pdf ← pdfplumber_open pdf_path;
     pages ← lift (fun _ => pdf_pages pdf);
     full_text ← pages_loop logger 1 pages full_text;
     mret (strip full_text))
    (fun e =>
       logger_error logger
         (lit "Error processing " ++ path_name pdf_path ++ lit ": " ++ exn_str e);;
       mret []).

(** Lines 130 to 142: the body of the loop over the files. *)
Definition process_file (original_dir processed_dir : path) (logger : Logger)
    (i total : nat) (pdf_path : path) : M unit :=
  logger_info logger
    (lit "[" ++ str_of_nat i ++ lit "/" ++ str_of_nat total ++ lit "] Processing: "
     ++ path_name pdf_path);;
  text ← extract_text_from_pdf pdf_path logger;
  let output_file := (path_stem pdf_path ++ lit ".txt") :: processed_dir in
  write_text output_file text;;
  shutil_move pdf_path (path_name pdf_path :: original_dir);;
  logger_info logger (lit "  " ++ 0x2713%N :: lit " Saved: " ++ path_name output_file).

(** [for i, pdf_path in enumerate(pdf_files, i): ...] *)
Fixpoint files_loop (original_dir processed_dir : path) (logger : Logger)
    (i total : nat) (pdf_files : list path) : M unit :=
  match pdf_files with
  | [] => mret tt
  | pdf_path :: rest =>
      process_file original_dir processed_dir logger i total pdf_path;;
      files_loop original_dir processed_dir logger (S i) total rest
  end.

Definition process_pdfs (input_dir original_dir processed_dir : path)
    (logger : Logger) : M nat :=
  pdf_files ← gets (fun w => glob_pdf input_dir (w_fs w));
  logger_info logger
    (lit "Found " ++ str_of_nat (length pdf_files) ++ lit " PDF file(s). Starting OCR...");;
  files_loop original_dir processed_dir logger 1 (length pdf_files) pdf_files;;
  mret (length pdf_files).

Definition abort_message : pystr :=
  nl ++ 0x26A0%N :: 0xFE0F%N :: lit "  Process aborted due to missing dependencies.".

Definition completed_message (count : nat) : pystr :=
  0x2713%N :: lit " Completed! " ++ str_of_nat count ++ lit " PDF(s) processed.".

Definition main : M unit :=
  '(input_dir, output_dir) ← setup_folders;
  pdf_files ← gets (fun w => glob_pdf input_dir (w_fs w));
  if negb (nonempty pdf_files)
  then print (lit "No PDF files found in /input folder.")
  else
    '(original_dir, processed_dir) ← get_timestamp_folder output_dir;
    let timestamp_dir := tail original_dir in
    logger ← setup_logging timestamp_dir;
    logger_info logger (lit "PDF OCR - Processing PDFs from /input folder");;
    input_resolved ← resolve input_dir;
    logger_info logger (lit "Input folder:  " ++ input_resolved);;
    timestamp_resolved ← resolve timestamp_dir;
    logger_info logger (lit "Output folder: " ++ timestamp_resolved);;
    ok ← check_dependencies logger;
    if negb ok
    then logger_info logger abort_message
    else
      count ← process_pdfs input_dir original_dir processed_dir logger;
      logger_info logger (completed_message count);;
      logger_info logger (lit "Results saved to: " ++ path_name timestamp_dir ++ lit "/").

(** [python main.py]: the module is loaded, then, its name being
    [__main__], [main()] is called. *)
Definition script : M unit :=
  module_top;;
  main.

(** ** What the extraction of a document amounts to

    The loop over the pages, read as the spec describes it: every page is
    resolved to a source and a text, or to nothing; the text of the
    document is made of the blocks of its pages. *)

Inductive source :=
| Direct
| OCR.

(** What rendering at 150, conversion and reading yield for a page. *)
Definition ocr_outcome (page : Page) : result (list pystr) :=
  match to_image page 150 with
  | Raise e => Raise e
  | Ok pil_image =>
      match np_array pil_image with
      | Raise e => Raise e
      | Ok img_array => readtext img_array
      end
  end.

(** The resolver: direct text when it is not blank, else the fragments OCR
    reads joined by newlines, else nothing. *)
Definition resolve_page (page : Page) : option (source * pystr) :=
  match extract_text page with
  | Raise _ => None
  | Ok text =>
      if has_text text then Some (Direct, text_of text)
      else match ocr_outcome page with
           | Ok results => if nonempty results then Some (OCR, join nl results) else None
           | Raise _ => None
           end
  end.

Definition marker (page_num : nat) (src : source) : pystr :=
  nl ++ lit "--- Page " ++ str_of_nat page_num
     ++ match src with Direct => lit " ---" | OCR => lit " (OCR) ---" end ++ nl.

(** The block of a page: its marker, then its text; nothing for a page that
    resolves to nothing. *)
Definition block (page_num : nat) (page : Page) : pystr :=
  match resolve_page page with
  | Some (src, text) => marker page_num src ++ text
  | None => []
  end.

(** The blocks of the pages, numbered from [page_num] on. *)
Fixpoint blocks (page_num : nat) (pages : list Page) : list pystr :=
  match pages with
  | [] => []
  | page :: rest => block page_num page :: blocks (S page_num) rest
  end.

(** The text of a document: the blocks of its pages, in page order and
    numbered from 1, put together and trimmed. *)
Definition document_text (pages : list Page) : pystr :=
  strip (concat (imap (fun i page => block (S i) page) pages)).

(** The first exception an [extract_text] of the pages raises. *)
Fixpoint first_fault (pages : list Page) : option exn :=
  match pages with
  | [] => None
  | page :: rest =>
      match extract_text page with
      | Raise e => Some e
      | Ok _ => first_fault rest
      end
  end.

(** The pages of the document at [p], when it opens and lists them. *)
Definition document_pages (p : path) (fs : FS) : result (list Page) :=
  match parse_pdf p fs with
  | Raise e => Raise e
  | Ok pdf => pdf_pages pdf
  end.


(** The text extracted from the document at [p]. *)
Definition extracted (p : path) (fs : FS) : pystr :=
  match document_pages p fs with
  | Raise _ => []
  | Ok pages =>
      match first_fault pages with
      | Some _ => []
      | None => document_text pages
      end
  end.

(** ** The events of a run

    What the functions of [main.py] leave in the trace, as functions of the
    pages and of the file system, and what is counted in a trace. *)

(** The calls of the OCR of a page. *)
Definition ocr_calls (page_num : nat) (page : Page) : list call :=
  Call_to_image page_num 150 ::
  match to_image page 150 with
  | Raise _ => []
  | Ok pil_image =>
      Call_np_array page_num ::
      match np_array pil_image with
      | Raise _ => []
      | Ok _ => [Call_readtext page_num]
      end
  end.

(** Rendering and conversion both succeed, so that the engine is reached. *)
Definition engine_reached (page : Page) : bool :=
  match to_image page 150 with
  | Raise _ => false
  | Ok pil_image =>
      match np_array pil_image with
      | Raise _ => false
      | Ok _ => true
      end
  end.

Definition no_text_warning (page_num : nat) : event :=
  Logged WARNING (lit "No text found on page " ++ str_of_nat page_num).

Definition ocr_failed_warning (page_num : nat) (e : exn) : event :=
  Logged WARNING (lit "Could not OCR page " ++ str_of_nat page_num ++ lit ": " ++ exn_str e).

(** The warning of a page whose OCR gives no text. *)
Definition ocr_warning (page_num : nat) (page : Page) : list event :=
  match ocr_outcome page with
  | Ok results => if nonempty results then [] else [no_text_warning page_num]
  | Raise e => [ocr_failed_warning page_num e]
  end.

(** The events of one turn of the loop over the pages. *)
Definition page_events (page_num : nat) (page : Page) : list event :=
  Called (Call_extract_text page_num) ::
  match extract_text page with
  | Raise _ => []
  | Ok text =>
      if has_text text then []
      else map Called (ocr_calls page_num page) ++ ocr_warning page_num page
  end.

(** The events of the loop over the pages; it ends with the first page
    whose [extract_text] raises. *)
Fixpoint pages_events (page_num : nat) (pages : list Page) : list event :=
  match pages with
  | [] => []
  | page :: rest =>
      page_events page_num page ++
      match extract_text page with
      | Raise _ => []
      | Ok _ => pages_events (S page_num) rest
      end
  end.

Definition error_event (p : path) (e : exn) : event :=
  Logged ERROR (lit "Error processing " ++ path_name p ++ lit ": " ++ exn_str e).

(** The events of the extraction of the document at [p]. *)
Definition extraction_events (p : path) (fs : FS) : list event :=
  Called (Call_open p) ::
  match document_pages p fs with
  | Raise e => [error_event p e]
  | Ok pages =>
      pages_events 1 pages ++
      match first_fault pages with
      | Some e => [error_event p e]
      | None => []
      end
  end.

Definition processing_event (i total : nat) (pdf_path : path) : event :=
  Logged INFO (lit "[" ++ str_of_nat i ++ lit "/" ++ str_of_nat total
               ++ lit "] Processing: " ++ path_name pdf_path).

Definition saved_event (output_file : path) : event :=
  Logged INFO (lit "  " ++ 0x2713%N :: lit " Saved: " ++ path_name output_file).

(** The three records [main] logs once the logger is set up. *)
Definition opening_events (cwd : pystr) (input_dir timestamp_dir : path) : list event :=
  [Logged INFO (lit "PDF OCR - Processing PDFs from /input folder");
   Logged INFO (lit "Input folder:  " ++ resolved cwd input_dir);
   Logged INFO (lit "Output folder: " ++ resolved cwd timestamp_dir)].

(** The two records [main] logs once the batch is through. *)
Definition closing_events (count : nat) (timestamp_dir : path) : list event :=
  [Logged INFO (completed_message count);
   Logged INFO (lit "Results saved to: " ++ path_name timestamp_dir ++ lit "/")].

Definition not_found_message : pystr :=
  0x274C%N :: lit " EasyOCR not found. Install with: uv sync".

(** An event other than the two records of the abort on a missing
    dependency. *)
Definition not_abort (ev : event) : Prop :=
  ev <> Logged INFO abort_message /\ ev <> Logged ERROR not_found_message.

(** How many events of a trace satisfy [P]. *)
Definition count (P : event -> bool) (t : list event) : nat :=
  length (List.filter P t).

Definition is_readtext (page_num : nat) (ev : event) : bool :=
  match ev with
  | Called (Call_readtext n) => Nat.eqb n page_num
  | _ => false
  end.

Definition is_to_image (page_num : nat) (ev : event) : bool :=
  match ev with
  | Called (Call_to_image n _) => Nat.eqb n page_num
  | _ => false
  end.

(** How often the OCR engine is called on page [page_num] in a trace. *)
Definition readtext_calls (page_num : nat) : list event -> nat :=
  count (is_readtext page_num).

(** How often page [page_num] is rendered in a trace. *)
Definition to_image_calls (page_num : nat) : list event -> nat :=
  count (is_to_image page_num).

(** ** Growth of the file system and of the trace *)

(** The world once the entries [extra] are added to the file system. *)
Definition grow (extra : FS) (w : World) : World :=
  set_fs (fun fs => fs ++ extra) w.

(** Along every run of [m] the trace grows by events that satisfy [Q]. *)
Definition emits {A} (Q : event -> Prop) (m : M A) : Prop :=
  forall w, exists evs, w_trace (m w).2 = w_trace w ++ evs /\ Forall Q evs.

(** Along every run of [m] the file system grows by entries that satisfy
    [Q] and the trace by events that satisfy [R], and nothing else
    changes. *)
Definition creates {A} (Q : path * node -> Prop) (R : event -> Prop)
    (m : M A) : Prop :=
  forall w, exists extra evs,
    (m w).2 = after evs (grow extra w) /\ Forall Q extra /\ Forall R evs.

Definition no_event (ev : event) : Prop := False.

(** A directory made on the way to [p]. *)
Definition made_for (p : path) (e : path * node) : Prop :=
  e.2 = Dir /\ e.1 <> [] /\ e.1 `suffix_of` p.

(** ** Sample pages, documents and worlds

    The instances of the theorems below are taken at these. *)

Definition never_rendered : nat -> result PILImage :=
  fun _ => Raise (Exn OtherException (lit "not rendered")).

(** A page that carries text. *)
Definition text_page (s : string) : Page :=
  {| extract_text := Ok (Some (lit s)); to_image := never_rendered |}.

(** A page without text, in whose image the engine reads [fragments]. *)
Definition scanned_page (fragments : list pystr) : Page :=
  {| extract_text := Ok (Some []);
     to_image := fun _ => Ok {| np_array := Ok {| readtext := Ok fragments |} |} |}.

(** A page of white space whose rendering raises. *)
Definition unrenderable_page : Page :=
  {| extract_text := Ok (Some (lit "  "));
     to_image := fun _ => Raise (Exn OtherException (lit "cannot render")) |}.

Definition sample_pdf : PDF :=
  {| pdf_pages := Ok [text_page "hello"; scanned_page [lit "a"; lit "b"];
                      scanned_page []; unrenderable_page] |}.

Definition corrupt_exn : exn :=
  Exn OtherException (lit "No /Root object! - Is this really a PDF?").

Definition corrupt_data : content := Data (Raise corrupt_exn).

Definition a_pdf : path := lit "a.pdf" :: Path "input".
Definition b_pdf : path := lit "b.pdf" :: Path "input".
Definition c_pdf : path := lit "c.pdf" :: Path "input".

Definition a_txt : path :=
  lit "a.txt" :: lit "processed" :: lit "20240101_120000" :: Path "output".

Definition b_txt : path :=
  lit "b.txt" :: lit "processed" :: lit "20240101_120000" :: Path "output".

Definition world_of (fs : FS) (readonly : list path)
    (site : list (pystr * result unit)) : World :=
  {| w_fs := fs; w_readonly := readonly; w_now := lit "20240101_120000";
     w_cwd := lit "/home/user"; w_sys_modules := []; w_site := site;
     w_Reader := Ok tt; w_trace := [] |}.

Definition all_installed : list (pystr * result unit) :=
  map (fun name => (name, Ok tt)) imports.

(** The folder [input] with a four-page document, a corrupt one and a
    document of one unrenderable page. *)
Definition sample_fs : FS :=
  [(Path "input", Dir);
   (a_pdf, File (Data (Ok sample_pdf)));
   (b_pdf, File corrupt_data);
   (c_pdf, File (Data (Ok {| pdf_pages := Ok [unrenderable_page] |})))].

Definition sample_world : World := world_of sample_fs [] all_installed.

Definition sample_logger : Logger :=
  {| log_file := lit "ocr_log.txt" :: lit "20240101_120000" :: Path "output" |}.

(** A working directory with nothing in it. *)
Definition empty_world : World := world_of [] [] all_installed.



(** The sample folder once the folders of a run are made. *)
Definition prepared_fs : FS :=
  sample_fs ++
  [(Path "output", Dir);
   (lit "20240101_120000" :: Path "output", Dir);
   (lit "original" :: lit "20240101_120000" :: Path "output", Dir);
   (lit "processed" :: lit "20240101_120000" :: Path "output", Dir)].

Definition prepared_world : World := world_of prepared_fs [] all_installed.

(** A working directory in which [input] is a regular file. *)
Definition world_input_is_file : World :=
  world_of [(Path "input", File (Text (lit "not a folder")))] [] all_installed.

(** The sample folder, the import of EasyOCR raising [OSError] as a native
    library fails to load. *)
Definition world_easyocr_broken : World :=
  world_of sample_fs []
    (map (fun name => (name, if bool_decide (name = lit "easyocr")
                             then Raise (Exn OtherException (lit "cannot load library"))
                             else Ok tt)) imports).

(** The documents opened in a trace, in the order of their opening. *)
Definition opened (t : list event) : list path :=
  flat_map (fun ev => match ev with
                      | Called (Call_open p) => [p]
                      | _ => []
                      end) t.

(** The sample folder, everything installed but EasyOCR. *)
Definition world_easyocr_not_installed : World :=
  world_of sample_fs []
    (List.filter (fun m => negb (bool_decide (m.1 = lit "easyocr"))) all_installed).

(** A call of the OCR engine, on whatever page. *)
Definition is_engine_call (ev : event) : bool :=
  match ev with
  | Called (Call_readtext _) => true
  | _ => false
  end.

(** The direct extraction of the page returns no text, or a blank one. *)
Definition no_direct_text (page : Page) : bool :=
  match extract_text page with
  | Ok text => negb (has_text text)
  | Raise _ => false
  end.

(** The sample folder, in a process that has loaded the modules of the
    script. *)
Definition loaded_world : World :=
  {| w_fs := sample_fs; w_readonly := []; w_now := lit "20240101_120000";
     w_cwd := lit "/home/user"; w_sys_modules := imports; w_site := all_installed;
     w_Reader := Ok tt; w_trace := [] |}.

(** * Properties *)

(** ** Running a computation *)

Lemma after_nil w : after [] w = w.
Proof. destruct w; unfold after, set_trace; cbn. by rewrite app_nil_r. Qed.

Lemma after_after e1 e2 w : after e2 (after e1 w) = after (e1 ++ e2) w.
Proof. unfold after, set_trace; cbn. by rewrite app_assoc. Qed.


#[local] Arguments lit : simpl never.
#[local] Arguments str_of_nat : simpl never.
#[local] Arguments strip : simpl never.
#[local] Arguments join : simpl never.
#[local] Arguments direct_marker : simpl never.
#[local] Arguments ocr_marker : simpl never.
#[local] Arguments has_text : simpl never.
#[local] Arguments path_stem : simpl never.
#[local] Arguments Path : simpl never.
#[local] Arguments page_events : simpl never.
#[local] Arguments block : simpl never.
#[local] Arguments ocr_calls : simpl never.
#[local] Arguments ocr_warning : simpl never.
#[local] Arguments count : simpl never.

Ltac run :=
  repeat (unfold mbind, M_bind, mret, M_ret, called, record, modify, lift, gets,
            try_except, raise, logger_warning, logger_info, logger_error; cbn).

Lemma ocr_page_spec logger n page ft w :
  ocr_page logger n page ft w =
  (Ok (ft ++ match ocr_outcome page with
             | Ok results => if nonempty results then ocr_marker n ++ join nl results else []
             | Raise _ => []
             end),
   after (map Called (ocr_calls n page) ++ ocr_warning n page) w).
Proof.
  unfold ocr_page, ocr_calls, ocr_warning, ocr_outcome,
    no_text_warning, ocr_failed_warning. run.
  destruct (to_image page 150) as [img|e]; cbn;
    [destruct (np_array img) as [arr|e]; cbn;
     [destruct (readtext arr) as [results|e]; cbn;
      [destruct results; cbn|]|]|];
    rewrite ?after_after, ?app_nil_r; reflexivity.
Qed.

Lemma page_body_spec logger n page ft w :
  page_body logger n page ft w =
  (match extract_text page with
   | Ok _ => Ok (ft ++ block n page)
   | Raise e => Raise e
   end, after (page_events n page) w).
Proof.
  unfold page_body, page_events, block, resolve_page. run.
  destruct (extract_text page) as [text|e]; cbn; [|done].
  destruct (has_text text); cbn; [done|].
  rewrite ocr_page_spec, after_after. cbn.
  by destruct (ocr_outcome page) as [[|]|].
Qed.

Lemma pages_loop_spec logger pages : forall n ft w,
  pages_loop logger n pages ft w =
  (match first_fault pages with
   | None => Ok (ft ++ concat (blocks n pages))
   | Some e => Raise e
   end, after (pages_events n pages) w).
Proof.
  induction pages as [|page rest IH]; intros n ft w; cbn.
  - by rewrite after_nil, app_nil_r.
  - unfold mbind, M_bind. rewrite page_body_spec.
    destruct (extract_text page) as [text|e]; cbn.
    + by rewrite IH, after_after, <- app_assoc.
    + by rewrite app_nil_r.
Qed.

Lemma blocks_imap pages : forall n,
  blocks n pages = imap (fun i page => block (n + i) page) pages.
Proof.
  induction pages as [|page rest IH]; intros n; cbn; [done|].
  rewrite Nat.add_0_r, IH. f_equal. apply imap_ext. intros i x _. cbn.
  f_equal. lia.
Qed.

Lemma document_text_blocks pages :
  document_text pages = strip (concat (blocks 1 pages)).
Proof. unfold document_text. by rewrite blocks_imap. Qed.

Lemma extract_text_from_pdf_spec p logger w :
  extract_text_from_pdf p logger w =
  (Ok (extracted p (w_fs w)), after (extraction_events p (w_fs w)) w).
Proof.
  unfold extract_text_from_pdf, extracted, extraction_events, document_pages,
    pdfplumber_open, error_event.
  run.
  destruct (parse_pdf p (w_fs w)) as [pdf|e]; cbn; [|by rewrite after_after].
  destruct (pdf_pages pdf) as [pages|e]; cbn; [|by rewrite after_after].
  rewrite pages_loop_spec, document_text_blocks.
  destruct (first_fault pages) as [e|]; cbn; by rewrite !after_after, ?app_nil_r.
Qed.

(** ** Strings *)

Lemma strip_nil : strip [] = [].
Proof. reflexivity. Qed.

Lemma has_text_true text :
  has_text text = true <-> exists s, text = Some s /\ strip s <> [].
Proof.
  unfold has_text. split.
  - destruct text as [s|]; [|done]. intros H. exists s. split; [done|].
    apply andb_prop in H as [_ H]. by destruct (strip s).
  - intros (s & -> & H). destruct s as [|c s]; [done|].
    cbn. by destruct (strip (c :: s)).
Qed.

Lemma has_text_false text :
  has_text text = false <-> text = None \/ exists s, text = Some s /\ strip s = [].
Proof.
  split.
  - intros H. destruct text as [s|]; [right|by left]. exists s. split; [done|].
    destruct (strip s) eqn:E; [done|].
    assert (has_text (Some s) = true) as H'
      by (apply has_text_true; exists s; by rewrite E).
    congruence.
  - intros [->|(s & -> & H)]; [done|].
    unfold has_text. rewrite H. cbn. apply andb_false_r.
Qed.

(** ** Counting the calls on a page *)

Lemma count_app P t1 t2 : count P (t1 ++ t2) = count P t1 + count P t2.
Proof. unfold count. by rewrite List.filter_app, length_app. Qed.

Lemma readtext_calls_page k n page :
  readtext_calls k (page_events n page) =
  if Nat.eqb n k
  then match extract_text page with
       | Ok text => if has_text text then 0 else if engine_reached page then 1 else 0
       | Raise _ => 0
       end
  else 0.
Proof.
  unfold readtext_calls, count, page_events, ocr_calls, ocr_warning, ocr_outcome,
    engine_reached, no_text_warning, ocr_failed_warning.
  destruct (extract_text page) as [text|e]; cbn; [|by destruct (n =? k)].
  destruct (has_text text); cbn; [by destruct (n =? k)|].
  destruct (to_image page 150) as [img|e]; cbn; [|by destruct (n =? k)].
  destruct (np_array img) as [arr|e]; cbn; [|by destruct (n =? k)].
  destruct (readtext arr) as [[|r rs]|e]; cbn; by destruct (n =? k).
Qed.

Lemma to_image_calls_page k n page :
  to_image_calls k (page_events n page) =
  if Nat.eqb n k
  then match extract_text page with
       | Ok text => if has_text text then 0 else 1
       | Raise _ => 0
       end
  else 0.
Proof.
  unfold to_image_calls, count, page_events, ocr_calls, ocr_warning, ocr_outcome,
    no_text_warning, ocr_failed_warning.
  destruct (extract_text page) as [text|e]; cbn; [|by destruct (n =? k)].
  destruct (has_text text); cbn; [by destruct (n =? k)|].
  destruct (to_image page 150) as [img|e]; cbn; [|by destruct (n =? k)].
  destruct (np_array img) as [arr|e]; cbn; [|by destruct (n =? k)].
  destruct (readtext arr) as [[|r rs]|e]; cbn; by destruct (n =? k).
Qed.

Section CallsOfOnePage.
(** [P] selects events of page [k] only. *)
Variable P : event -> bool.
Variable k : nat.
Hypothesis P_page : forall n page, n <> k -> count P (page_events n page) = 0.

Lemma count_pages_later pages : forall n,
  k < n -> count P (pages_events n pages) = 0.
Proof using P_page.
  induction pages as [|page rest IH]; intros n Hn; cbn; [done|].
  rewrite count_app, P_page by lia.
  destruct (extract_text page); [apply IH; lia|done].
Qed.

(** The calls on page [k] are those of its own turn, when the loop gets
    that far. *)
Lemma count_pages_at pages : forall n i page,
  pages !! i = Some page ->
  first_fault (take i pages) = None ->
  n + i = k ->
  count P (pages_events n pages) = count P (page_events k page).
Proof using P_page.
  induction pages as [|p rest IH]; intros n i page Hi Hreach Hk; [done|].
  destruct i as [|i]; cbn in *.
  - injection Hi as ->. rewrite Nat.add_0_r in Hk. subst n.
    rewrite count_app.
    destruct (extract_text page); [|by rewrite Nat.add_0_r].
    rewrite count_pages_later by lia. lia.
  - rewrite count_app, P_page by lia.
    destruct (extract_text p); [|done].
    apply (IH (S n) i); [done|done|lia].
Qed.

(** They are at most those of its own turn in any case. *)
Lemma count_pages_le pages : forall n i page,
  pages !! i = Some page ->
  n + i = k ->
  count P (pages_events n pages) <= count P (page_events k page).
Proof using P_page.
  induction pages as [|p rest IH]; intros n i page Hi Hk; [done|].
  destruct i as [|i]; cbn in *.
  - injection Hi as ->. rewrite Nat.add_0_r in Hk. subst n.
    rewrite count_app.
    destruct (extract_text page); [|rewrite Nat.add_0_r; lia].
    rewrite count_pages_later by lia. lia.
  - rewrite count_app, P_page by lia.
    destruct (extract_text p); [|unfold count at 1; cbn; lia].
    apply (IH (S n) i); [done|lia].
Qed.
End CallsOfOnePage.

Lemma extraction_trace p logger w :
  w_trace (extract_text_from_pdf p logger w).2 =
  w_trace w ++ extraction_events p (w_fs w).
Proof. by rewrite extract_text_from_pdf_spec. Qed.

Lemma count_extraction_events P p fs pages :
  document_pages p fs = Ok pages ->
  P (Called (Call_open p)) = false ->
  (forall e, P (error_event p e) = false) ->
  count P (extraction_events p fs) = count P (pages_events 1 pages).
Proof.
  intros Hp Hopen Herr. unfold extraction_events. rewrite Hp.
  change (Called (Call_open p) :: ?l) with ([Called (Call_open p)] ++ l).
  rewrite !count_app. unfold count at 1. cbn. rewrite Hopen. cbn.
  destruct (first_fault pages) as [e|]; unfold count at 2; cbn;
    [rewrite Herr; cbn|]; lia.
Qed.

Lemma readtext_calls_other n k page : n <> k -> readtext_calls k (page_events n page) = 0.
Proof.
  intros H. rewrite readtext_calls_page.
  by destruct (Nat.eqb_spec n k).
Qed.

Lemma to_image_calls_other n k page : n <> k -> to_image_calls k (page_events n page) = 0.
Proof.
  intros H. rewrite to_image_calls_page.
  by destruct (Nat.eqb_spec n k).
Qed.

(** ** The extraction policy *)

(** C1. A page whose direct extraction returns a string that is not empty
    once trimmed: in the extraction of its document the page is never
    rendered and the engine never called on it, and the turn of the loop on
    the page does nothing but append the marker without OCR annotation and
    the text. *)
Theorem C1_direct_text_never_ocr (logger : Logger) (pdf_path : path) (w : World)
    (pages : list Page) (i : nat) (page : Page) (text : pystr) :
  document_pages pdf_path (w_fs w) = Ok pages ->
  pages !! i = Some page ->
  extract_text page = Ok (Some text) ->
  strip text <> [] ->
  (exists evs,
     w_trace (extract_text_from_pdf pdf_path logger w).2 = w_trace w ++ evs /\
     readtext_calls (S i) evs = 0 /\
     to_image_calls (S i) evs = 0) /\
  (forall n ft w',
     page_body logger n page ft w' =
     (Ok (ft ++ direct_marker n ++ text), after [Called (Call_extract_text n)] w')).
Proof.
  intros Hdoc Hi Htext Hstrip.
  assert (has_text (Some text) = true) as Hhas
    by (apply has_text_true; eauto).
  split.
  - exists (extraction_events pdf_path (w_fs w)).
    split; [apply extraction_trace|].
    unfold readtext_calls, to_image_calls.
    rewrite !(count_extraction_events _ _ _ pages) by done.
    split.
    + pose proof (count_pages_le (is_readtext (S i)) (S i)
        (fun n p => readtext_calls_other n (S i) p) pages 1 i page Hi eq_refl) as H.
      fold (readtext_calls (S i) (page_events (S i) page)) in H.
      rewrite readtext_calls_page, Nat.eqb_refl, Htext, Hhas in H. lia.
    + pose proof (count_pages_le (is_to_image (S i)) (S i)
        (fun n p => to_image_calls_other n (S i) p) pages 1 i page Hi eq_refl) as H.
      fold (to_image_calls (S i) (page_events (S i) page)) in H.
      rewrite to_image_calls_page, Nat.eqb_refl, Htext, Hhas in H. lia.
  - intros n ft w'. rewrite page_body_spec, Htext.
    unfold block, resolve_page, page_events. by rewrite Htext, Hhas.
Qed.

Lemma C1_witness :
  (exists evs,
     w_trace (extract_text_from_pdf a_pdf sample_logger sample_world).2 =
     w_trace sample_world ++ evs /\
     readtext_calls 1 evs = 0 /\
     to_image_calls 1 evs = 0) /\
  (forall n ft w',
     page_body sample_logger n (text_page "hello") ft w' =
     (Ok (ft ++ direct_marker n ++ lit "hello"),
      after [Called (Call_extract_text n)] w')).
Proof.
  apply (C1_direct_text_never_ocr sample_logger a_pdf sample_world
           [text_page "hello"; scanned_page [lit "a"; lit "b"];
            scanned_page []; unrenderable_page] 0 (text_page "hello") (lit "hello"));
    [reflexivity | reflexivity | reflexivity | vm_compute; discriminate].
Defined.





(** The turn of the loop on a blank page whose rendering raises: the engine
    is not called. *)
Lemma C3_counterexample :
  document_pages c_pdf (w_fs sample_world) = Ok [unrenderable_page] /\
  extract_text unrenderable_page = Ok (Some (lit "  ")) /\
  strip (lit "  ") = [] /\
  w_trace (extract_text_from_pdf c_pdf sample_logger sample_world).2 =
    [Called (Call_open c_pdf); Called (Call_extract_text 1);
     Called (Call_to_image 1 150);
     Logged WARNING (lit "Could not OCR page 1: cannot render")] /\
  readtext_calls 1
    (w_trace (extract_text_from_pdf c_pdf sample_logger sample_world).2) = 0.
Proof. repeat split; vm_compute; reflexivity. Qed.

(** C3, amended. A page that the loop reaches and whose direct extraction
    returns [None] or a blank string: in the extraction of its document the
    page is rendered exactly once, and the engine is called on it exactly
    once when rendering and conversion succeed, not at all when one of them
    raises. *)
Theorem C3_ocr_attempted_once (logger : Logger) (pdf_path : path) (w : World)
    (pages : list Page) (i : nat) (page : Page) (text : option pystr) :
  document_pages pdf_path (w_fs w) = Ok pages ->
  pages !! i = Some page ->
  first_fault (take i pages) = None ->
  extract_text page = Ok text ->
  has_text text = false ->
  exists evs,
    w_trace (extract_text_from_pdf pdf_path logger w).2 = w_trace w ++ evs /\
    to_image_calls (S i) evs = 1 /\
    readtext_calls (S i) evs = if engine_reached page then 1 else 0.
Proof.
  intros Hdoc Hi Hreach Htext Hhas.
  exists (extraction_events pdf_path (w_fs w)).
  split; [apply extraction_trace|].
  unfold readtext_calls, to_image_calls.
  rewrite !(count_extraction_events _ _ _ pages) by done.
  split.
  - rewrite (count_pages_at (is_to_image (S i)) (S i)
      (fun n p => to_image_calls_other n (S i) p) pages 1 i page Hi Hreach eq_refl).
    fold (to_image_calls (S i) (page_events (S i) page)).
    by rewrite to_image_calls_page, Nat.eqb_refl, Htext, Hhas.
  - rewrite (count_pages_at (is_readtext (S i)) (S i)
      (fun n p => readtext_calls_other n (S i) p) pages 1 i page Hi Hreach eq_refl).
    fold (readtext_calls (S i) (page_events (S i) page)).
    by rewrite readtext_calls_page, Nat.eqb_refl, Htext, Hhas.
Qed.

Lemma C3_witness :
  exists evs,
    w_trace (extract_text_from_pdf a_pdf sample_logger sample_world).2 =
      w_trace sample_world ++ evs /\
    to_image_calls 2 evs = 1 /\
    readtext_calls 2 evs = 1.
Proof.
  apply (C3_ocr_attempted_once sample_logger a_pdf sample_world
           [text_page "hello"; scanned_page [lit "a"; lit "b"];
            scanned_page []; unrenderable_page] 1
           (scanned_page [lit "a"; lit "b"]) (Some []));
    reflexivity.
Defined.

Lemma blocks_app before : forall n rest,
  blocks n (before ++ rest) = blocks n before ++ blocks (n + length before) rest.
Proof.
  induction before as [|p before IH]; intros n rest; cbn.
  - by rewrite Nat.add_0_r.
  - rewrite IH. do 3 f_equal. lia.
Qed.

Lemma concat_blocks_nil pages : forall n,
  (forall page, page ∈ pages -> resolve_page page = None) ->
  concat (blocks n pages) = [].
Proof.
  induction pages as [|p rest IH]; intros n H; cbn; [done|].
  rewrite IH by (intros q Hq; apply H; by right).
  unfold block. rewrite (H p) by left. done.
Qed.

(** C4. A document that opens and whose pages all return from direct
    extraction: the text extracted is the concatenation, trimmed, of the
    blocks of its pages in page order, the block of page [i + 1] being its
    marker (with the OCR annotation when the text is read by OCR, the
    fragments then joined by newlines) followed by its text; it is empty
    when no page resolves to a text. *)
Theorem C4_document_text (logger : Logger) (pdf_path : path) (w : World)
    (pages : list Page) :
  document_pages pdf_path (w_fs w) = Ok pages ->
  first_fault pages = None ->
  (extract_text_from_pdf pdf_path logger w).1 =
    Ok (strip (concat (imap (fun i page => block (S i) page) pages))) /\
  ((forall page, page ∈ pages -> resolve_page page = None) ->
   (extract_text_from_pdf pdf_path logger w).1 = Ok []).
Proof.
  intros Hdoc Hfault.
  assert ((extract_text_from_pdf pdf_path logger w).1 = Ok (document_text pages)) as H.
  { rewrite extract_text_from_pdf_spec. cbn. unfold extracted.
    by rewrite Hdoc, Hfault. }
  split; [done|].
  intros Hnone. rewrite H, document_text_blocks, concat_blocks_nil by done.
  done.
Qed.

Lemma C4_witness :
  (extract_text_from_pdf a_pdf sample_logger sample_world).1 =
    Ok (strip (concat (imap (fun i page => block (S i) page)
                         [text_page "hello"; scanned_page [lit "a"; lit "b"];
                          scanned_page []; unrenderable_page]))) /\
  ((forall page,
      page ∈ [text_page "hello"; scanned_page [lit "a"; lit "b"];
              scanned_page []; unrenderable_page] ->
      resolve_page page = None) ->
   (extract_text_from_pdf a_pdf sample_logger sample_world).1 = Ok []).
Proof.
  apply (C4_document_text sample_logger a_pdf sample_world); reflexivity.
Defined.

(** The text of the sample document, written out. *)
Example sample_document_text :
  (extract_text_from_pdf a_pdf sample_logger sample_world).1 =
  Ok (lit "--- Page 1 ---" ++ nl ++ lit "hello" ++ nl ++
      lit "--- Page 2 (OCR) ---" ++ nl ++ lit "a" ++ nl ++ lit "b").
Proof. vm_compute. reflexivity. Qed.

(** C9. A page whose direct text is blank and whose OCR reads nothing or
    raises: the turn of the loop leaves the text accumulated as it is, the
    page has no block, and the text of the document is that of the pages
    before and after it, these keeping their numbers. *)
Theorem C9_no_text_no_block (logger : Logger) (n : nat) (page : Page)
    (text : option pystr) :
  extract_text page = Ok text ->
  has_text text = false ->
  (ocr_outcome page = Ok [] \/ exists e, ocr_outcome page = Raise e) ->
  (forall ft w, exists evs, page_body logger n page ft w = (Ok ft, after evs w)) /\
  block n page = [] /\
  (forall pdf_path w before rest,
     document_pages pdf_path (w_fs w) = Ok (before ++ page :: rest) ->
     first_fault (before ++ page :: rest) = None ->
     (extract_text_from_pdf pdf_path logger w).1 =
       Ok (strip (concat (blocks 1 before ++ blocks (S (S (length before))) rest)))).
Proof.
  intros Htext Hhas Hocr.
  assert (forall k, block k page = []) as Hblock.
  { intros k. unfold block, resolve_page. rewrite Htext, Hhas.
    by destruct Hocr as [->|[e ->]]. }
  split; [|split; [done|]].
  - intros ft w. exists (page_events n page).
    by rewrite page_body_spec, Htext, Hblock, app_nil_r.
  - intros pdf_path w before rest Hdoc Hfault.
    rewrite extract_text_from_pdf_spec. cbn. unfold extracted.
    rewrite Hdoc, Hfault, document_text_blocks, blocks_app. cbn.
    rewrite Hblock. cbn. by rewrite !concat_app.
Qed.

Lemma C9_witness :
  (forall ft w, exists evs,
     page_body sample_logger 3 (scanned_page []) ft w = (Ok ft, after evs w)) /\
  block 3 (scanned_page []) = [] /\
  (forall pdf_path w before rest,
     document_pages pdf_path (w_fs w) = Ok (before ++ scanned_page [] :: rest) ->
     first_fault (before ++ scanned_page [] :: rest) = None ->
     (extract_text_from_pdf pdf_path sample_logger w).1 =
       Ok (strip (concat (blocks 1 before ++ blocks (S (S (length before))) rest)))).
Proof.
  apply (C9_no_text_no_block sample_logger 3 (scanned_page []) (Some []));
    [reflexivity | reflexivity | left; reflexivity].
Defined.

(** ** What a computation leaves in the trace and in the file system *)

Lemma grow_nil w : grow [] w = w.
Proof. destruct w; unfold grow, set_fs; cbn. by rewrite app_nil_r. Qed.

Lemma grow_grow e1 e2 w : grow e2 (grow e1 w) = grow (e1 ++ e2) w.
Proof. unfold grow, set_fs; cbn. by rewrite app_assoc. Qed.

Lemma grow_after extra evs w : grow extra (after evs w) = after evs (grow extra w).
Proof. reflexivity. Qed.

Section Emits.
Context {A B : Type} (Q : event -> Prop).

Lemma emits_ret (a : A) : emits Q (mret a : M A).
Proof. intros w. exists []. by rewrite app_nil_r. Qed.

Lemma emits_raise (e : exn) : emits Q (raise e : M A).
Proof. intros w. exists []. by rewrite app_nil_r. Qed.

Lemma emits_lift (r : World -> result A) : emits Q (lift r).
Proof. intros w. exists []. by rewrite app_nil_r. Qed.

Lemma emits_gets (f : World -> A) : emits Q (gets f).
Proof. intros w. exists []. by rewrite app_nil_r. Qed.

Lemma emits_bind (m : M A) (k : A -> M B) :
  emits Q m -> (forall a, emits Q (k a)) -> emits Q (m ≫= k).
Proof.
  intros Hm Hk w. unfold mbind, M_bind.
  destruct (Hm w) as (evs1 & H1 & Q1).
  destruct (m w) as [[a|e] w1]; cbn in *.
  - destruct (Hk a w1) as (evs2 & H2 & Q2).
    exists (evs1 ++ evs2). rewrite H2, H1, app_assoc.
    split; [done|]. by apply Forall_app.
  - by exists evs1.
Qed.

Lemma emits_try_except (m : M A) (h : exn -> M A) :
  emits Q m -> (forall e, emits Q (h e)) -> emits Q (try_except m h).
Proof.
  intros Hm Hh w. unfold try_except.
  destruct (Hm w) as (evs1 & H1 & Q1).
  destruct (m w) as [[a|e] w1]; cbn in *.
  - by exists evs1.
  - destruct (Hh e w1) as (evs2 & H2 & Q2).
    exists (evs1 ++ evs2). rewrite H2, H1, app_assoc.
    split; [done|]. by apply Forall_app.
Qed.
End Emits.

Lemma emits_record Q (ev : event) : Q ev -> emits Q (record ev).
Proof. intros H w. exists [ev]. split; [done|]. by constructor. Qed.

Lemma emits_modify Q (f : World -> World) :
  (forall w, w_trace (f w) = w_trace w) -> emits Q (modify f).
Proof. intros H w. exists []. cbn. by rewrite H, app_nil_r. Qed.

Lemma emits_weaken {A} (Q Q' : event -> Prop) (m : M A) :
  (forall ev, Q ev -> Q' ev) -> emits Q m -> emits Q' m.
Proof.
  intros HQ Hm w. destruct (Hm w) as (evs & H & HF).
  exists evs. split; [done|]. eapply Forall_impl; eauto.
Qed.

Section Creates.
Context {A B : Type} (Q : path * node -> Prop) (R : event -> Prop).

Lemma creates_same (m : M A) :
  (forall w, (m w).2 = w) -> creates Q R m.
Proof.
  intros H w. exists [], []. by rewrite H, grow_nil, after_nil.
Qed.

Lemma creates_ret (a : A) : creates Q R (mret a : M A).
Proof. by apply creates_same. Qed.

Lemma creates_raise (e : exn) : creates Q R (raise e : M A).
Proof. by apply creates_same. Qed.

Lemma creates_lift (r : World -> result A) : creates Q R (lift r).
Proof. by apply creates_same. Qed.

Lemma creates_gets (f : World -> A) : creates Q R (gets f).
Proof. by apply creates_same. Qed.

Lemma creates_bind (m : M A) (k : A -> M B) :
  creates Q R m -> (forall a, creates Q R (k a)) -> creates Q R (m ≫= k).
Proof.
  intros Hm Hk w. unfold mbind, M_bind.
  destruct (Hm w) as (ex1 & evs1 & H1 & Q1 & R1).
  destruct (m w) as [[a|e] w1]; cbn in *.
  - destruct (Hk a w1) as (ex2 & evs2 & H2 & Q2 & R2).
    exists (ex1 ++ ex2), (evs1 ++ evs2).
    rewrite H2, H1, grow_after, grow_grow, after_after.
    split; [done|]. split; by apply Forall_app.
  - by exists ex1, evs1.
Qed.

Lemma creates_try_except (m : M A) (h : exn -> M A) :
  creates Q R m -> (forall e, creates Q R (h e)) -> creates Q R (try_except m h).
Proof.
  intros Hm Hh w. unfold try_except.
  destruct (Hm w) as (ex1 & evs1 & H1 & Q1 & R1).
  destruct (m w) as [[a|e] w1]; cbn in *.
  - by exists ex1, evs1.
  - destruct (Hh e w1) as (ex2 & evs2 & H2 & Q2 & R2).
    exists (ex1 ++ ex2), (evs1 ++ evs2).
    rewrite H2, H1, grow_after, grow_grow, after_after.
    split; [done|]. split; by apply Forall_app.
Qed.
End Creates.

Lemma creates_record Q (R : event -> Prop) (ev : event) :
  R ev -> creates Q R (record ev).
Proof.
  intros H w. exists [], [ev]. rewrite grow_nil.
  split; [done|]. split; [done|]. by constructor.
Qed.

Lemma creates_grow Q R (extra : FS) :
  Forall Q extra -> creates Q R (modify (grow extra)).
Proof. intros H w. exists extra, []. by rewrite after_nil. Qed.

Lemma creates_weaken {A} (Q Q' : path * node -> Prop) (R R' : event -> Prop)
    (m : M A) :
  (forall e, Q e -> Q' e) -> (forall ev, R ev -> R' ev) ->
  creates Q R m -> creates Q' R' m.
Proof.
  intros HQ HR Hm w. destruct (Hm w) as (extra & evs & H & HF & HE).
  exists extra, evs. split; [done|]. split; eapply Forall_impl; eauto.
Qed.

Lemma no_event_nil evs : Forall no_event evs -> evs = [].
Proof. destruct evs as [|ev evs]; [done|]. by inversion 1. Qed.

Lemma os_mkdir_creates p : creates (made_for p) no_event (os_mkdir p).
Proof.
  intros w. unfold os_mkdir, mbind, M_bind, lift, modify.
  destruct (mkdir_result p w) as [[]|e] eqn:E; cbn.
  - exists [(p, Dir)], []. rewrite after_nil. split; [done|]. split; [|done].
    constructor; [|done]. split; [done|]. split; [|done].
    cbn. intros ->. discriminate E.
  - exists [], []. by rewrite grow_nil, after_nil.
Qed.

Lemma mkdir_handler_creates Q R exist_ok (f : World -> bool) e :
  creates Q R (is_dir ← gets f;
               if exist_ok && is_dir then mret tt else raise e).
Proof.
  apply creates_bind; [apply creates_gets|]. intros is_dir.
  destruct (exist_ok && is_dir); [apply creates_ret|apply creates_raise].
Qed.

Lemma mkdir_flat_creates exist_ok p :
  creates (made_for p) no_event (mkdir_flat exist_ok p).
Proof.
  apply creates_try_except; [apply os_mkdir_creates|]. intros e.
  destruct (is_FileNotFoundError e); [apply creates_raise|].
  apply mkdir_handler_creates.
Qed.

Lemma Path_mkdir_creates p : forall parents exist_ok,
  creates (made_for p) no_event (Path_mkdir parents exist_ok p).
Proof.
  induction p as [|name parent IH]; intros parents exist_ok; cbn;
    (apply creates_try_except; [apply os_mkdir_creates|]); intros e;
    (destruct (is_FileNotFoundError e); [|apply mkdir_handler_creates]).
  - apply creates_raise.
  - destruct parents; [|apply creates_raise].
    apply creates_bind; [|intros _; apply mkdir_flat_creates].
    eapply creates_weaken; [| |apply IH]; [|done].
    intros entry (H1 & H2 & H3). repeat split; [done..|].
    by apply suffix_cons_r.
Qed.

Lemma made_for_single x e : made_for [x] e -> e = ([x], Dir).
Proof.
  destruct e as [q n]. intros (Hn & Hq & Hs). cbn in *. subst n.
  destruct q as [|c q]; [done|].
  apply suffix_cons_inv in Hs as [->|Hs]; [done|].
  by apply suffix_nil_inv in Hs.
Qed.

Lemma setup_folders_creates :
  creates (fun e => e = (Path "input", Dir) \/ e = (Path "output", Dir))
          no_event setup_folders.
Proof.
  unfold setup_folders.
  apply creates_bind; [|intros _; apply creates_bind; [|intros _; apply creates_ret]].
  - eapply creates_weaken; [| |apply Path_mkdir_creates]; [|done].
    intros e He. left. by apply made_for_single.
  - eapply creates_weaken; [| |apply Path_mkdir_creates]; [|done].
    intros e He. right. by apply made_for_single.
Qed.

Lemma setup_folders_result w dirs :
  (setup_folders w).1 = Ok dirs -> dirs = (Path "input", Path "output").
Proof.
  unfold setup_folders, mbind, M_bind, mret, M_ret.
  destruct (Path_mkdir false true (Path "input") w) as [[[]|e] w1]; [|done].
  destruct (Path_mkdir false true (Path "output") w1) as [[[]|e] w2]; [|done].
  cbn. congruence.
Qed.

Lemma glob_pdf_app d fs extra :
  glob_pdf d (fs ++ extra) = glob_pdf d fs ++ glob_pdf d extra.
Proof. unfold glob_pdf. by rewrite List.filter_app, map_app. Qed.

(** The folders at the top are no entries of [input]. *)
Lemma glob_pdf_top_folders extra :
  Forall (fun e => e = (Path "input", Dir) \/ e = (Path "output", Dir)) extra ->
  glob_pdf (Path "input") extra = [].
Proof.
  induction 1 as [|e extra [->| ->] _ IH]; [done|..]; unfold glob_pdf in *; cbn;
    exact IH.
Qed.

(** ** The batch *)

Lemma main_no_files w w1 :
  setup_folders w = (Ok (Path "input", Path "output"), w1) ->
  glob_pdf (Path "input") (w_fs w1) = [] ->
  main w = (Ok tt, after [Printed (lit "No PDF files found in /input folder.")] w1).
Proof.
  intros Hsetup Hglob. unfold main, mbind, M_bind. rewrite Hsetup.
  unfold gets. cbv beta iota. by rewrite Hglob.
Qed.

Lemma main_setup_raises w w1 e :
  setup_folders w = (Raise e, w1) -> main w = (Raise e, w1).
Proof. intros Hsetup. unfold main, mbind, M_bind. by rewrite Hsetup. Qed.

(** With nothing in the working directory, [main] makes the folder
    [output] (and [input]), and the one event of the run is the line
    printed: no count of processed files is reported. *)
Lemma C7_counterexample :
  glob_pdf (Path "input") (w_fs empty_world) = [] /\
  fs_lookup (Path "output") (w_fs empty_world) = None /\
  fs_lookup (Path "output") (w_fs (main empty_world).2) = Some Dir /\
  w_trace (main empty_world).2 =
    [Printed (lit "No PDF files found in /input folder.")].
Proof. repeat split; vm_compute; reflexivity. Qed.

(** C7, amended. When [input] holds no PDF file, the run adds to the file
    system at most the folders [input] and [output] themselves (nothing
    below them: no timestamped folder, no subfolder, no log file); when it
    returns, the one event of the run is the line printed on the console,
    so that nothing is logged, no file is processed and no count is
    reported; when the making of the folders raises, there is no event. *)
Theorem C7_no_pdf_files (w : World) :
  glob_pdf (Path "input") (w_fs w) = [] ->
  exists extra,
    w_fs (main w).2 = w_fs w ++ extra /\
    Forall (fun e => e = (Path "input", Dir) \/ e = (Path "output", Dir)) extra /\
    match (main w).1 with
    | Ok _ => w_trace (main w).2 =
              w_trace w ++ [Printed (lit "No PDF files found in /input folder.")]
    | Raise _ => w_trace (main w).2 = w_trace w
    end.
Proof.
  intros Hglob.
  destruct (setup_folders_creates w) as (extra & evs & Hw & Hextra & Hevs).
  apply no_event_nil in Hevs as ->. rewrite after_nil in Hw.
  exists extra.
  destruct (setup_folders w) as [[dirs|e] w1] eqn:E; cbn in Hw; subst w1.
  - pose proof (setup_folders_result w dirs) as Hres.
    rewrite E in Hres. specialize (Hres eq_refl). subst dirs.
    rewrite (main_no_files _ _ E).
    + cbn. auto.
    + change (w_fs (grow extra w)) with (w_fs w ++ extra).
      by rewrite glob_pdf_app, Hglob, glob_pdf_top_folders.
  - rewrite (main_setup_raises _ _ _ E). cbn. auto.
Qed.

Lemma C7_witness :
  exists extra,
    w_fs (main empty_world).2 = w_fs empty_world ++ extra /\
    Forall (fun e => e = (Path "input", Dir) \/ e = (Path "output", Dir)) extra /\
    match (main empty_world).1 with
    | Ok _ => w_trace (main empty_world).2 =
              w_trace empty_world ++ [Printed (lit "No PDF files found in /input folder.")]
    | Raise _ => w_trace (main empty_world).2 = w_trace empty_world
    end.
Proof. apply (C7_no_pdf_files empty_world). reflexivity. Defined.

Lemma get_timestamp_folder_creates output_dir :
  creates (fun e => e.2 = Dir) no_event (get_timestamp_folder output_dir).
Proof.
  unfold get_timestamp_folder.
  apply creates_bind; [apply creates_gets|]. intros timestamp.
  apply creates_bind; [|intros _; apply creates_bind; [|intros _; apply creates_ret]];
    (eapply creates_weaken; [| |apply Path_mkdir_creates]; [|done]);
    by intros e (He & _).
Qed.

Lemma get_timestamp_folder_result output_dir w dirs :
  (get_timestamp_folder output_dir w).1 = Ok dirs ->
  dirs = (lit "original" :: w_now w :: output_dir,
          lit "processed" :: w_now w :: output_dir).
Proof.
  unfold get_timestamp_folder, mbind, M_bind, mret, M_ret, gets.
  destruct (Path_mkdir true true _ w) as [[[]|e] w1]; [|done].
  destruct (Path_mkdir true true _ w1) as [[[]|e] w2]; [|done].
  cbn. congruence.
Qed.

Lemma FileHandler_creates p :
  creates (fun e => e = (p, File (Text []))) no_event (FileHandler p).
Proof.
  intros w. unfold FileHandler, open_check, mbind, M_bind, lift, modify.
  destruct (open_result p w) as [[]|e]; cbn.
  - destruct (fs_exists p (w_fs w)) eqn:E.
    + exists [], []. rewrite after_nil, grow_nil. split; [|done].
      destruct w; unfold set_fs; cbn in *. by rewrite E.
    + exists [(p, File (Text []))], []. rewrite after_nil. split; [|by repeat constructor].
      unfold grow, set_fs; cbn. by rewrite E.
  - exists [], []. by rewrite after_nil, grow_nil.
Qed.

Lemma setup_logging_creates timestamp_dir :
  creates (fun e => e = (lit "ocr_log.txt" :: timestamp_dir, File (Text [])))
          no_event (setup_logging timestamp_dir).
Proof.
  unfold setup_logging.
  apply creates_bind; [apply FileHandler_creates|]. intros _. apply creates_ret.
Qed.

Lemma py_import_raises name w e :
  (py_import name w).1 = Raise e -> py_import name w = (Raise e, w).
Proof.
  unfold py_import. destruct (bool_decide _); [done|].
  destruct (find _ _) as [[m [[]|e']]|]; cbn; congruence.
Qed.



Lemma check_dependencies_loaded logger w :
  lit "easyocr" ∈ w_sys_modules w ->
  check_dependencies logger w =
  (Ok true,
   after [Logged INFO (0x2713%N ::
            lit " EasyOCR available (pure Python - no system dependencies needed)")] w).
Proof.
  intros Hin.
  unfold check_dependencies, try_except_of, try_except, mbind, M_bind, py_import.
  rewrite bool_decide_eq_true_2 by done. reflexivity.
Qed.

(** [main] once files are found, step by step. *)
Lemma main_with_files w w1 :
  setup_folders w = (Ok (Path "input", Path "output"), w1) ->
  glob_pdf (Path "input") (w_fs w1) <> [] ->
  main w =
  match get_timestamp_folder (Path "output") w1 with
  | (Raise e, w2) => (Raise e, w2)
  | (Ok (original_dir, processed_dir), w2) =>
      match setup_logging (tail original_dir) w2 with
      | (Raise e, w3) => (Raise e, w3)
      | (Ok logger, w3) =>
          match check_dependencies logger
                  (after (opening_events (w_cwd w3) (Path "input") (tail original_dir)) w3)
          with
          | (Raise e, w4) => (Raise e, w4)
          | (Ok false, w4) => (Ok tt, after [Logged INFO abort_message] w4)
          | (Ok true, w4) =>
              match process_pdfs (Path "input") original_dir processed_dir logger w4 with
              | (Raise e, w5) => (Raise e, w5)
              | (Ok count, w5) =>
                  (Ok tt, after (closing_events count (tail original_dir)) w5)
              end
          end
      end
  end.
Proof.
  intros Hsetup Hglob. unfold main, mbind, M_bind. rewrite Hsetup.
  unfold gets at 1. cbv beta iota.
  destruct (glob_pdf (Path "input") (w_fs w1)) as [|f fs]; [done|].
  cbv beta iota delta [nonempty negb].
  destruct (get_timestamp_folder (Path "output") w1) as [[[original_dir processed_dir]|e] w2];
    [|done].
  destruct (setup_logging (tail original_dir) w2) as [[logger|e] w3]; [|done].
  unfold logger_info at 1 2 3, resolve, record, modify, gets.
  cbv beta iota. rewrite !after_after.
  change (w_cwd (after _ w3)) with (w_cwd w3).
  change ([?a] ++ [?b] ++ [?c]) with [a; b; c].
  fold (opening_events (w_cwd w3) (Path "input") (tail original_dir)).
  destruct (check_dependencies logger _) as [[[|]|e] w4]; [| |done].
  - cbv beta iota delta [negb].
    destruct (process_pdfs _ _ _ _ w4) as [[count|e] w5]; [|done].
    unfold logger_info, record, modify. cbv beta iota. by rewrite after_after.
  - reflexivity.
Qed.




(** ** The events of the batch are not those of the abort *)

Ltac not_abort_tac := split; cbv; discriminate.

Ltac emits_tac :=
  repeat first
    [ apply emits_ret | apply emits_raise | apply emits_lift | apply emits_gets
    | apply emits_modify; intros; reflexivity
    | apply emits_record; not_abort_tac
    | apply emits_bind; [|intros ?]
    | apply emits_try_except; [|intros ?]
    | match goal with |- emits _ (if ?b then _ else _) => destruct b end ].

Lemma ocr_page_emits logger n page ft : emits not_abort (ocr_page logger n page ft).
Proof. unfold ocr_page, called, logger_warning. emits_tac. Qed.

Lemma page_body_emits logger n page ft : emits not_abort (page_body logger n page ft).
Proof.
  unfold page_body, called. emits_tac.
Qed.

Lemma pages_loop_emits logger pages : forall n ft,
  emits not_abort (pages_loop logger n pages ft).
Proof.
  induction pages as [|page rest IH]; intros n ft; cbn; [emits_tac|].
  apply emits_bind; [apply page_body_emits|]. intros ft'. apply IH.
Qed.

Lemma extract_text_from_pdf_emits p logger :
  emits not_abort (extract_text_from_pdf p logger).
Proof.
  unfold extract_text_from_pdf, pdfplumber_open, logger_error.
  apply emits_try_except.
  - emits_tac. apply pages_loop_emits.
  - intros e. emits_tac.
Qed.

Lemma write_text_emits p data : emits not_abort (write_text p data).
Proof. unfold write_text, open_check. emits_tac. Qed.

Lemma shutil_move_emits src dst : emits not_abort (shutil_move src dst).
Proof. unfold shutil_move, os_rename. emits_tac. Qed.

Lemma process_file_emits original_dir processed_dir logger i total p :
  emits not_abort (process_file original_dir processed_dir logger i total p).
Proof.
  unfold process_file, logger_info.
  apply emits_bind; [emits_tac|]. intros _.
  apply emits_bind; [apply extract_text_from_pdf_emits|]. intros text.
  apply emits_bind; [apply write_text_emits|]. intros _.
  apply emits_bind; [apply shutil_move_emits|]. intros _.
  emits_tac.
Qed.

Lemma files_loop_emits original_dir processed_dir logger total files : forall i,
  emits not_abort (files_loop original_dir processed_dir logger i total files).
Proof.
  induction files as [|p rest IH]; intros i; cbn; [emits_tac|].
  apply emits_bind; [apply process_file_emits|]. intros _. apply IH.
Qed.

Lemma process_pdfs_emits input_dir original_dir processed_dir logger :
  emits not_abort (process_pdfs input_dir original_dir processed_dir logger).
Proof.
  unfold process_pdfs, logger_info.
  apply emits_bind; [emits_tac|]. intros files.
  apply emits_bind; [emits_tac|]. intros _.
  apply emits_bind; [apply files_loop_emits|]. intros _. emits_tac.
Qed.

(** ** The import of EasyOCR *)

Lemma py_import_modules name w :
  (forall m, m ∈ w_sys_modules w -> m ∈ w_sys_modules (py_import name w).2) /\
  ((py_import name w).1 = Ok tt -> name ∈ w_sys_modules (py_import name w).2).
Proof.
  unfold py_import. destruct (bool_decide_reflect (name ∈ w_sys_modules w)); [done|].
  destruct (find _ _) as [[m [[]|e']]|]; cbn; [|done..].
  split; [intros m' Hm|intros _]; apply elem_of_app; [by left|right].
  by apply list_elem_of_singleton.
Qed.

Lemma imports_loaded names : forall w w',
  foldr (fun name rest => py_import name;; rest) (mret tt) names w = (Ok tt, w') ->
  (forall m, m ∈ w_sys_modules w -> m ∈ w_sys_modules w') /\
  (forall name, name ∈ names -> name ∈ w_sys_modules w').
Proof.
  induction names as [|name names IH]; intros w w' H; cbn in H.
  - injection H as <-. split; [done|]. by intros name ?%elem_of_nil.
  - unfold mbind, M_bind in H.
    destruct (py_import_modules name w) as [Hmono Hname].
    destruct (py_import name w) as [[[]|e] w1]; [|done]. cbn in *.
    destruct (IH _ _ H) as [Hmono' Hnames].
    split; [auto|].
    intros m [->|Hm]%elem_of_cons; auto.
Qed.

Lemma module_top_loaded w w1 :
  module_top w = (Ok tt, w1) -> lit "easyocr" ∈ w_sys_modules w1.
Proof.
  unfold module_top. unfold mbind at 1, M_bind at 1.
  match goal with |- context [foldr ?f ?a imports w] =>
    destruct (foldr f a imports w) as [[[]|e] w0] eqn:E
  end; [|done].
  unfold lift. intros [= _ <-].
  apply (imports_loaded _ _ _ E). unfold imports.
  rewrite !elem_of_cons. tauto.
Qed.

(** With EasyOCR loaded, no run of [main] logs the abort. *)
Lemma main_never_aborts w :
  lit "easyocr" ∈ w_sys_modules w ->
  exists evs, w_trace (main w).2 = w_trace w ++ evs /\ Forall not_abort evs.
Proof.
  intros Hloaded.
  destruct (setup_folders_creates w) as (ex1 & evs1 & Hw1 & Hex1 & Hevs1).
  apply no_event_nil in Hevs1 as ->. rewrite after_nil in Hw1.
  destruct (setup_folders w) as [[dirs|e1] w1] eqn:E1; cbn in Hw1; subst w1.
  2: { rewrite (main_setup_raises _ _ _ E1). exists []. by rewrite app_nil_r. }
  pose proof (setup_folders_result w dirs) as Hres.
  rewrite E1 in Hres. specialize (Hres eq_refl). subst dirs.
  destruct (glob_pdf (Path "input") (w_fs (grow ex1 w))) as [|f fs] eqn:Hglob.
  { rewrite (main_no_files _ _ E1 Hglob). eexists. split; [reflexivity|].
    constructor; [not_abort_tac|done]. }
  rewrite (main_with_files _ _ E1) by (by rewrite Hglob).
  destruct (get_timestamp_folder_creates (Path "output") (grow ex1 w))
    as (ex2 & evs2 & Hw2 & Hex2 & Hevs2).
  apply no_event_nil in Hevs2 as ->. rewrite after_nil, grow_grow in Hw2.
  destruct (get_timestamp_folder (Path "output") (grow ex1 w))
    as [[[original_dir processed_dir]|e2] w2]; cbn in Hw2; subst w2.
  2: { exists []. by rewrite app_nil_r. }
  destruct (setup_logging_creates (tail original_dir) (grow (ex1 ++ ex2) w))
    as (ex3 & evs3 & Hw3 & Hex3 & Hevs3).
  apply no_event_nil in Hevs3 as ->. rewrite after_nil, grow_grow in Hw3.
  destruct (setup_logging (tail original_dir) (grow (ex1 ++ ex2) w))
    as [[logger|e3] w3]; cbn in Hw3; subst w3.
  2: { exists []. by rewrite app_nil_r. }
  rewrite check_dependencies_loaded by done.
  rewrite after_after.
  match goal with |- context [process_pdfs ?a ?b ?c ?d ?w0] =>
    destruct (process_pdfs_emits a b c d w0) as (evs & Hevs & HQ);
    destruct (process_pdfs a b c d w0) as [[count|e] w5]
  end; cbn in Hevs; cbn [snd]; [cbn [w_trace after set_trace]|];
    rewrite Hevs, <- !app_assoc; eexists; (split; [reflexivity|]);
    rewrite ?Forall_app; repeat split; try done;
    repeat (constructor; [not_abort_tac|]); done.
Qed.

(** C10. A run of the script either stops while the module is loaded, and
    [main] is not called, or reaches [main] with EasyOCR bound in
    [sys.modules]: the dependency check then returns [True] wherever
    [sys.modules] is as the load left it, and the run logs neither the
    error on the missing dependency nor the record of the abort. *)
Theorem C10_dependency_check_succeeds (w : World) :
  match module_top w with
  | (Raise e, w1) => script w = (Raise e, w1)
  | (Ok _, w1) =>
      lit "easyocr" ∈ w_sys_modules w1 /\
      (forall logger w2,
         w_sys_modules w2 = w_sys_modules w1 ->
         (check_dependencies logger w2).1 = Ok true) /\
      exists evs,
        w_trace (script w).2 = w_trace w1 ++ evs /\
        Forall (fun ev => ev <> Logged INFO abort_message /\
                          ev <> Logged ERROR not_found_message) evs
  end.
Proof.
  pose proof (module_top_loaded w) as Hloaded.
  unfold script, mbind, M_bind.
  destruct (module_top w) as [[[]|e] w1]; [|done].
  specialize (Hloaded _ eq_refl).
  split; [done|]. split.
  - intros logger w2 H. rewrite check_dependencies_loaded; [done|]. by rewrite H.
  - by apply main_never_aborts.
Qed.

(** ** Looking up entries after a write and after a rename *)

Lemma fs_lookup_cons p q n fs :
  p <> [] ->
  fs_lookup p ((q, n) :: fs) = if bool_decide (q = p) then Some n else fs_lookup p fs.
Proof.
  intros Hp. destruct p as [|c p]; [done|]. cbn. unfold at_path. cbn.
  by destruct (bool_decide (q = c :: p)).
Qed.

Lemma fs_lookup_app_l p fs extra n :
  fs_lookup p fs = Some n -> fs_lookup p (fs ++ extra) = Some n.
Proof.
  destruct p as [|c p]; [done|].
  induction fs as [|[q m] fs IH]; [done|].
  rewrite <- app_comm_cons, !fs_lookup_cons by done.
  by destruct (bool_decide (q = c :: p)).
Qed.

Lemma fs_lookup_app_absent p fs extra :
  fs_lookup p fs = None -> fs_lookup p (fs ++ extra) = fs_lookup p extra.
Proof.
  destruct p as [|c p]; [done|].
  induction fs as [|[q m] fs IH]; [done|].
  rewrite <- app_comm_cons, !fs_lookup_cons by done.
  by destruct (bool_decide (q = c :: p)).
Qed.



Lemma rebase_within src dst k : rebase src dst (k ++ src) = k ++ dst.
Proof.
  unfold rebase, within.
  rewrite bool_decide_eq_true_2 by (by apply suffix_app_r).
  by rewrite length_app, Nat.add_sub, take_app_length.
Qed.

Lemma rebase_outside src dst q : ¬ src `suffix_of` q -> rebase src dst q = q.
Proof. intros H. unfold rebase, within. by rewrite bool_decide_eq_false_2. Qed.



Lemma within_true d q : within d q = true <-> d `suffix_of` q.
Proof. unfold within. apply bool_decide_eq_true. Qed.





(** ** The stages of one file *)

Lemma write_text_steps p data w :
  write_text p data w =
  let w1 := after [Called (Call_write_text p data)] w in
  match open_result p w with
  | Raise e => (Raise e, w1)
  | Ok _ =>
      if utf8_encodable data
      then (Ok tt, set_fs (fs_put p (File (Text data)))
                     (set_fs (fs_put p (File (Text []))) w1))
      else (Raise (Exn UnicodeEncodeError (lit "surrogates not allowed")),
            set_fs (fs_put p (File (Text []))) w1)
  end.
Proof.
  unfold write_text, open_check. run.
  change (open_result p (after _ w)) with (open_result p w).
  destruct (open_result p w) as [[]|e]; [|done].
  by destruct (utf8_encodable data).
Qed.

Lemma os_rename_steps src dst w :
  os_rename src dst w =
  match rename_result src dst w with
  | Raise e => (Raise e, w)
  | Ok _ => (Ok tt, set_fs (fs_rename src dst) w)
  end.
Proof. unfold os_rename. run. by destruct (rename_result src dst w) as [[]|e]. Qed.

Lemma shutil_move_steps src dst w :
  shutil_move src dst w =
  let w1 := after [Called (Call_move src dst)] w in
  if fs_is_dir dst (w_fs w)
  then if fs_exists (path_name src :: dst) (w_fs w)
       then (Raise (Exn ShutilError (lit "Destination path already exists")), w1)
       else os_rename src (path_name src :: dst) w1
  else os_rename src dst w1.
Proof.
  unfold shutil_move. run.
  destruct (fs_is_dir dst (w_fs w)); [|done].
  change (w_fs (after _ w)) with (w_fs w).
  by destruct (fs_exists _ (w_fs w)).
Qed.


Lemma write_text_trace p data w :
  w_trace (write_text p data w).2 = w_trace w ++ [Called (Call_write_text p data)].
Proof.
  rewrite write_text_steps. cbv zeta.
  destruct (open_result p w) as [[]|e]; [|done].
  by destruct (utf8_encodable data).
Qed.

Lemma shutil_move_trace src dst w :
  w_trace (shutil_move src dst w).2 = w_trace w ++ [Called (Call_move src dst)].
Proof.
  rewrite shutil_move_steps. cbv zeta. rewrite !os_rename_steps.
  destruct (fs_is_dir dst (w_fs w)); [destruct (fs_exists _ (w_fs w))|];
    repeat match goal with |- context [rename_result ?a ?b ?c] =>
             destruct (rename_result a b c) as [[]|?] end;
    done.
Qed.

Lemma process_file_steps original_dir processed_dir logger i total p w :
  process_file original_dir processed_dir logger i total p w =
  let output_file := (path_stem p ++ lit ".txt") :: processed_dir in
  let w1 := after (processing_event i total p :: extraction_events p (w_fs w)) w in
  match write_text output_file (extracted p (w_fs w)) w1 with
  | (Raise e, w2) => (Raise e, w2)
  | (Ok _, w2) =>
      match shutil_move p (path_name p :: original_dir) w2 with
      | (Raise e, w3) => (Raise e, w3)
      | (Ok _, w3) => (Ok tt, after [saved_event output_file] w3)
      end
  end.
Proof.
  unfold process_file. unfold mbind at 1 2, M_bind at 1 2.
  unfold logger_info at 1, record, modify.
  rewrite extract_text_from_pdf_spec.
  change (w_fs (after _ w)) with (w_fs w). rewrite after_after.
  cbv zeta. unfold mbind, M_bind.
  destruct (write_text _ _ _) as [[[]|e] w2]; [|done].
  by destruct (shutil_move _ _ w2) as [[[]|e] w3].
Qed.

Lemma files_loop_cons original_dir processed_dir logger i total p rest w :
  files_loop original_dir processed_dir logger i total (p :: rest) w =
  match process_file original_dir processed_dir logger i total p w with
  | (Raise e, w') => (Raise e, w')
  | (Ok _, w') => files_loop original_dir processed_dir logger (S i) total rest w'
  end.
Proof.
  cbn [files_loop]. unfold mbind, M_bind.
  by destruct (process_file _ _ _ _ _ _ w) as [[[]|e] w'].
Qed.



(** ** A document that fails *)

Ltac paths_differ :=
  let H := fresh in
  unfold Path; intros H;
  repeat first [ apply suffix_cons_inv in H as [H|H]
               | apply suffix_nil_inv in H ];
  cbv in H; congruence.


Lemma process_pdfs_count input_dir original_dir processed_dir logger w :
  match process_pdfs input_dir original_dir processed_dir logger w with
  | (Ok count, _) => count = length (glob_pdf input_dir (w_fs w))
  | (Raise _, _) => True
  end.
Proof.
  unfold process_pdfs. unfold mbind at 1 2, M_bind at 1 2, gets, logger_info, record, modify.
  change (w_fs (after _ w)) with (w_fs w) || idtac.
  unfold mbind, M_bind.
  destruct (files_loop _ _ _ _ _ _ _) as [[[]|e] w']; done.
Qed.



(** The sample batch, from the script to the files it leaves. *)
Example sample_run :
  let w' := (script sample_world).2 in
  (script sample_world).1 = Ok tt /\
  fs_lookup a_txt (w_fs w') =
    Some (File (Text (lit "--- Page 1 ---" ++ nl ++ lit "hello" ++ nl ++
                      lit "--- Page 2 (OCR) ---" ++ nl ++ lit "a" ++ nl ++ lit "b"))) /\
  fs_lookup b_txt (w_fs w') = Some (File (Text [])) /\
  glob_pdf (Path "input") (w_fs w') = [] /\
  last (w_trace w') = Some (Logged INFO (lit "Results saved to: 20240101_120000/")) /\
  count (fun ev => match ev with Logged INFO m => bool_decide (m = completed_message 3) | _ => false end)
        (w_trace w') = 1.
Proof. repeat split; vm_compute; reflexivity. Qed.

(** * Further properties of [main.py] *)

(** ** The folders *)

Lemma os_mkdir_steps p w :
  os_mkdir p w =
  match mkdir_result p w with
  | Ok _ => (Ok tt, grow [(p, Dir)] w)
  | Raise e => (Raise e, w)
  end.
Proof. unfold os_mkdir. run. by destruct (mkdir_result p w) as [[]|e]. Qed.

Lemma mkdir_result_ok p w :
  mkdir_result p w = Ok tt -> p <> [] /\ fs_lookup p (w_fs w) = None.
Proof.
  unfold mkdir_result, fs_exists. destruct p as [|c p]; [done|].
  destruct (fs_lookup (c :: p) (w_fs w)); [done|]. by intros _.
Qed.

Lemma fs_is_dir_grow p fs extra :
  fs_is_dir p fs = true -> fs_is_dir p (fs ++ extra) = true.
Proof.
  unfold fs_is_dir. destruct (fs_lookup p fs) as [[|c]|] eqn:E; [|done..].
  intros _. by rewrite (fs_lookup_app_l _ _ _ _ E).
Qed.

Lemma fs_is_dir_made p fs :
  p <> [] -> fs_lookup p fs = None -> fs_is_dir p (fs ++ [(p, Dir)]) = true.
Proof.
  intros Hp Hnone. unfold fs_is_dir.
  by rewrite fs_lookup_app_absent, fs_lookup_cons, bool_decide_eq_true_2.
Qed.

Lemma os_mkdir_made p w w' :
  os_mkdir p w = (Ok tt, w') -> fs_is_dir p (w_fs w') = true.
Proof.
  rewrite os_mkdir_steps.
  destruct (mkdir_result p w) as [[]|e] eqn:E; [|done].
  intros [= <-]. apply mkdir_result_ok in E as [Hp Hnone].
  by apply fs_is_dir_made.
Qed.

Lemma mkdir_flat_made exist_ok p w w' :
  mkdir_flat exist_ok p w = (Ok tt, w') -> fs_is_dir p (w_fs w') = true.
Proof.
  unfold mkdir_flat, try_except.
  destruct (os_mkdir p w) as [[[]|e] w1] eqn:E.
  - intros [= <-]. by eapply os_mkdir_made.
  - destruct (is_FileNotFoundError e); [done|]. run.
    destruct exist_ok; [|done]. cbn.
    destruct (fs_is_dir p (w_fs w1)) eqn:Hdir; [|done]. by intros [= <-].
Qed.

(** When [mkdir] returns, the folder is there. *)
Lemma Path_mkdir_made p parents exist_ok w w' :
  Path_mkdir parents exist_ok p w = (Ok tt, w') -> fs_is_dir p (w_fs w') = true.
Proof.
  destruct p as [|name parent]; cbn [Path_mkdir]; unfold try_except.
  - by intros _.
  - destruct (os_mkdir (name :: parent) w) as [[[]|e] w1] eqn:E.
    + intros [= <-]. by eapply os_mkdir_made.
    + destruct (is_FileNotFoundError e).
      * destruct parents; [|done]. unfold mbind, M_bind.
        destruct (Path_mkdir true true parent w1) as [[[]|e2] w2]; [|done].
        apply mkdir_flat_made.
      * run. destruct exist_ok; [|done]. cbn.
        destruct (fs_is_dir (name :: parent) (w_fs w1)) eqn:Hdir; [|done].
        by intros [= <-].
Qed.

(** With [exist_ok], [mkdir] on a folder that is there returns and changes
    nothing. *)
Lemma Path_mkdir_existing p parents w :
  fs_is_dir p (w_fs w) = true -> Path_mkdir parents true p w = (Ok tt, w).
Proof.
  intros Hdir.
  assert (os_mkdir p w = (Raise (Exn FileExistsError (lit "File exists")), w)) as Hos.
  { rewrite os_mkdir_steps. unfold mkdir_result, fs_exists.
    destruct p as [|c p]; [done|]. unfold fs_is_dir in Hdir.
    by destruct (fs_lookup (c :: p) (w_fs w)). }
  destruct p as [|name parent]; cbn [Path_mkdir]; unfold try_except;
    rewrite Hos; cbn [is_FileNotFoundError exn_cls]; run; by rewrite ?Hdir.
Qed.

Lemma creates_keeps {A} Q R (m : M A) w p n :
  creates Q R m ->
  fs_lookup p (w_fs w) = Some n -> fs_lookup p (w_fs (m w).2) = Some n.
Proof.
  intros Hm Hp. destruct (Hm w) as (extra & evs & -> & _).
  by apply fs_lookup_app_l.
Qed.

(** X1. When [setup_folders] returns, it returns the paths [input] and
    [output], both are folders, every entry that was there is there
    unchanged, and nothing is logged or printed. *)
Theorem setup_folders_makes_folders (w w' : World) (dirs : path * path) :
  setup_folders w = (Ok dirs, w') ->
  dirs = (Path "input", Path "output") /\
  fs_is_dir (Path "input") (w_fs w') = true /\
  fs_is_dir (Path "output") (w_fs w') = true /\
  (forall p n, fs_lookup p (w_fs w) = Some n -> fs_lookup p (w_fs w') = Some n) /\
  w_trace w' = w_trace w.
Proof.
  intros H.
  pose proof (setup_folders_result w dirs) as Hres. rewrite H in Hres.
  specialize (Hres eq_refl).
  destruct (setup_folders_creates w) as (extra & evs & Hw & _ & Hevs).
  apply no_event_nil in Hevs as ->. rewrite H, after_nil in Hw. cbn in Hw.
  split; [done|].
  assert (fs_is_dir (Path "input") (w_fs w') = true /\
          fs_is_dir (Path "output") (w_fs w') = true) as [? ?].
  { revert H. unfold setup_folders, mbind, M_bind, mret, M_ret.
    destruct (Path_mkdir false true (Path "input") w) as [[[]|e] w1] eqn:E1; [|done].
    destruct (Path_mkdir false true (Path "output") w1) as [[[]|e] w2] eqn:E2; [|done].
    intros [= _ <-].
    apply Path_mkdir_made in E1. pose proof (Path_mkdir_made _ _ _ _ _ E2).
    split; [|done].
    destruct (Path_mkdir_creates (Path "output") false true w1)
      as (ex & evs & Hw2 & _). rewrite E2 in Hw2. cbn in Hw2. rewrite Hw2.
    change (w_fs (after evs (grow ex w1))) with (w_fs w1 ++ ex).
    by apply fs_is_dir_grow. }
  repeat split; [done..| |by subst w'].
  intros p n Hp. subst w'. by apply fs_lookup_app_l.
Qed.

Lemma setup_folders_makes_folders_witness :
  let w' := (setup_folders empty_world).2 in
  fs_is_dir (Path "input") (w_fs w') = true /\
  fs_is_dir (Path "output") (w_fs w') = true.
Proof.
  intros w'.
  destruct (setup_folders_makes_folders empty_world w' (Path "input", Path "output"))
    as (_ & H1 & H2 & _); [reflexivity|].
  by split.
Defined.

(** X2. When [input] is there and is no folder, [setup_folders] raises
    [FileExistsError] and changes nothing: [exist_ok] passes over an
    existing folder only. *)
Theorem setup_folders_input_not_a_folder (w : World) (c : content) :
  fs_lookup (Path "input") (w_fs w) = Some (File c) ->
  setup_folders w = (Raise (Exn FileExistsError (lit "File exists")), w).
Proof.
  intros H. unfold setup_folders, mbind, M_bind.
  assert (Path_mkdir false true (Path "input") w =
          (Raise (Exn FileExistsError (lit "File exists")), w)) as ->; [|done].
  change (Path "input") with [lit "input"] in *.
  cbn [Path_mkdir]. unfold try_except. rewrite os_mkdir_steps.
  unfold mkdir_result, fs_exists. rewrite H.
  cbn [is_FileNotFoundError exn_cls]. run.
  unfold fs_is_dir. by rewrite H.
Qed.

Lemma setup_folders_input_not_a_folder_witness :
  setup_folders world_input_is_file =
  (Raise (Exn FileExistsError (lit "File exists")), world_input_is_file).
Proof.
  apply (setup_folders_input_not_a_folder world_input_is_file
           (Text (lit "not a folder"))).
  reflexivity.
Defined.

(** X3. [setup_folders] is idempotent: called in the world it left, it
    returns the same paths and changes nothing. *)
Theorem setup_folders_idempotent (w w1 : World) (dirs : path * path) :
  setup_folders w = (Ok dirs, w1) ->
  setup_folders w1 = (Ok dirs, w1).
Proof.
  intros H.
  destruct (setup_folders_makes_folders _ _ _ H) as (-> & Hin & Hout & _).
  unfold setup_folders, mbind, M_bind.
  by rewrite !Path_mkdir_existing.
Qed.

Lemma setup_folders_idempotent_witness :
  setup_folders (setup_folders empty_world).2 =
  (Ok (Path "input", Path "output"), (setup_folders empty_world).2).
Proof.
  apply (setup_folders_idempotent empty_world). reflexivity.
Defined.

(** X4. When [get_timestamp_folder] returns, it returns the folders
    [original] and [processed] of the folder named by the clock below
    [output_dir]; both are folders, whether or not [output_dir] was there;
    every entry that was there is there unchanged. *)
Theorem get_timestamp_folder_makes_folders (output_dir : path) (w w' : World)
    (dirs : path * path) :
  get_timestamp_folder output_dir w = (Ok dirs, w') ->
  dirs = (lit "original" :: w_now w :: output_dir,
          lit "processed" :: w_now w :: output_dir) /\
  fs_is_dir (lit "original" :: w_now w :: output_dir) (w_fs w') = true /\
  fs_is_dir (lit "processed" :: w_now w :: output_dir) (w_fs w') = true /\
  (forall p n, fs_lookup p (w_fs w) = Some n -> fs_lookup p (w_fs w') = Some n) /\
  w_trace w' = w_trace w.
Proof.
  intros H.
  pose proof (get_timestamp_folder_result output_dir w dirs) as Hres.
  rewrite H in Hres. specialize (Hres eq_refl).
  destruct (get_timestamp_folder_creates output_dir w) as (extra & evs & Hw & _ & Hevs).
  apply no_event_nil in Hevs as ->. rewrite H, after_nil in Hw. cbn in Hw.
  split; [done|].
  assert (fs_is_dir (lit "original" :: w_now w :: output_dir) (w_fs w') = true /\
          fs_is_dir (lit "processed" :: w_now w :: output_dir) (w_fs w') = true)
    as [? ?].
  { revert H. unfold get_timestamp_folder, mbind, M_bind, mret, M_ret, gets.
    destruct (Path_mkdir true true _ w) as [[[]|e] w1] eqn:E1; [|done].
    destruct (Path_mkdir true true _ w1) as [[[]|e] w2] eqn:E2; [|done].
    intros [= _ <-].
    apply Path_mkdir_made in E1. pose proof (Path_mkdir_made _ _ _ _ _ E2).
    split; [|done].
    match type of E2 with Path_mkdir _ _ ?p _ = _ =>
      destruct (Path_mkdir_creates p true true w1) as (ex & evs & Hw2 & _)
    end.
    rewrite E2 in Hw2. cbn in Hw2. rewrite Hw2.
    change (w_fs (after evs (grow ex w1))) with (w_fs w1 ++ ex).
    by apply fs_is_dir_grow. }
  repeat split; [done..| |by subst w'].
  intros p n Hp. subst w'. by apply fs_lookup_app_l.
Qed.

Lemma get_timestamp_folder_makes_folders_witness :
  let w' := (get_timestamp_folder (Path "output") sample_world).2 in
  fs_is_dir (lit "original" :: w_now sample_world :: Path "output") (w_fs w') = true /\
  fs_is_dir (lit "processed" :: w_now sample_world :: Path "output") (w_fs w') = true.
Proof.
  intros w'.
  destruct (get_timestamp_folder_makes_folders (Path "output") sample_world w'
              (lit "original" :: w_now sample_world :: Path "output",
               lit "processed" :: w_now sample_world :: Path "output"))
    as (_ & H1 & H2 & _); [reflexivity|].
  by split.
Defined.

(** X5. A second call of [get_timestamp_folder] at the same reading of the
    clock returns the same folders and changes nothing: the folders of a
    run are not fresh when two runs start within one second. *)
Theorem get_timestamp_folder_same_second (output_dir : path) (w w1 : World)
    (dirs : path * path) :
  get_timestamp_folder output_dir w = (Ok dirs, w1) ->
  get_timestamp_folder output_dir w1 = (Ok dirs, w1).
Proof.
  intros H.
  destruct (get_timestamp_folder_makes_folders _ _ _ _ H) as (-> & Ho & Hp & _).
  destruct (get_timestamp_folder_creates output_dir w) as (extra & evs & Hw & _).
  rewrite H in Hw. cbn in Hw.
  assert (w_now w1 = w_now w) as Hnow by (by subst w1).
  unfold get_timestamp_folder, mbind, M_bind, gets. rewrite Hnow.
  by rewrite !Path_mkdir_existing.
Qed.

Lemma get_timestamp_folder_same_second_witness :
  get_timestamp_folder (Path "output")
    (get_timestamp_folder (Path "output") sample_world).2 =
  (Ok (lit "original" :: w_now sample_world :: Path "output",
       lit "processed" :: w_now sample_world :: Path "output"),
   (get_timestamp_folder (Path "output") sample_world).2).
Proof.
  apply (get_timestamp_folder_same_second (Path "output") sample_world).
  reflexivity.
Defined.

(** ** The logger and the dependency check *)

(** X6. When [setup_logging] returns, the log file [ocr_log.txt] of the
    folder is there, and every entry that was there is there unchanged: a
    log file left by an earlier run keeps its content. *)
Theorem setup_logging_keeps_entries (timestamp_dir : path) (w w' : World)
    (logger : Logger) :
  setup_logging timestamp_dir w = (Ok logger, w') ->
  log_file logger = lit "ocr_log.txt" :: timestamp_dir /\
  fs_exists (lit "ocr_log.txt" :: timestamp_dir) (w_fs w') = true /\
  (forall p n, fs_lookup p (w_fs w) = Some n -> fs_lookup p (w_fs w') = Some n) /\
  w_trace w' = w_trace w.
Proof.
  unfold setup_logging, FileHandler, open_check, mbind, M_bind, lift, modify,
    mret, M_ret.
  destruct (open_result (lit "ocr_log.txt" :: timestamp_dir) w) as [[]|e]; [|done].
  intros [= <- <-]. cbn [log_file w_fs w_trace set_fs].
  split; [done|].
  destruct (fs_exists _ (w_fs w)) eqn:E.
  - repeat split; [done|auto].
  - repeat split.
    + unfold fs_exists in *.
      destruct (fs_lookup _ (w_fs w)) eqn:E'; [done|].
      by rewrite fs_lookup_app_absent, fs_lookup_cons, bool_decide_eq_true_2.
    + intros p n Hp. by apply fs_lookup_app_l.
Qed.

Lemma setup_logging_keeps_entries_witness :
  let timestamp_dir := lit "20240101_120000" :: Path "output" in
  let w' := (setup_logging timestamp_dir prepared_world).2 in
  fs_exists (lit "ocr_log.txt" :: timestamp_dir) (w_fs w') = true /\
  (forall p n, fs_lookup p (w_fs prepared_world) = Some n ->
               fs_lookup p (w_fs w') = Some n).
Proof.
  intros timestamp_dir w'.
  destruct (setup_logging_keeps_entries timestamp_dir prepared_world w' sample_logger)
    as (_ & H1 & H2 & _); [reflexivity|].
  by split.
Defined.

(** X7. [check_dependencies] catches [ImportError] only: when the import
    of EasyOCR raises an exception of another class, that exception
    propagates, and nothing is logged. *)
Theorem check_dependencies_other_exception (logger : Logger) (w : World) (e : exn) :
  (py_import (lit "easyocr") w).1 = Raise e ->
  is_ImportError e = false ->
  check_dependencies logger w = (Raise e, w).
Proof.
  intros Himp Hcls. apply py_import_raises in Himp.
  unfold check_dependencies, try_except_of, try_except, mbind, M_bind.
  by rewrite Himp, Hcls.
Qed.

Lemma check_dependencies_other_exception_witness :
  check_dependencies sample_logger world_easyocr_broken =
  (Raise (Exn OtherException (lit "cannot load library")), world_easyocr_broken).
Proof.
  apply (check_dependencies_other_exception sample_logger world_easyocr_broken);
    reflexivity.
Defined.

(** ** The text of a document *)

(** X8. [extract_text_from_pdf] never raises, whatever the path and the
    document, and changes nothing but the trace: no file is created,
    written or moved by the extraction. *)
Theorem extract_text_from_pdf_never_raises (pdf_path : path) (logger : Logger)
    (w : World) :
  exists text evs,
    extract_text_from_pdf pdf_path logger w =
    (Ok text, after (Called (Call_open pdf_path) :: evs) w).
Proof.
  rewrite extract_text_from_pdf_spec. unfold extraction_events.
  by eexists _, _.
Qed.

Lemma lstrip_idempotent s : lstrip (lstrip s) = lstrip s.
Proof.
  induction s as [|c s IH]; [done|]. cbn.
  destruct (isspace c) eqn:E; [done|]. cbn. by rewrite E.
Qed.

Lemma lstrip_app_keep x c y :
  isspace c = false -> lstrip (x ++ c :: y) = lstrip x ++ c :: y.
Proof.
  intros Hc. induction x as [|d x IH]; cbn; [by rewrite Hc|].
  by destruct (isspace d).
Qed.

Lemma lstrip_head s :
  match lstrip s with
  | [] => True
  | c :: _ => isspace c = false
  end.
Proof.
  induction s as [|c s IH]; [done|]. cbn.
  destruct (isspace c) eqn:E; [done|]. cbn. done.
Qed.

(** A string that does not begin with white space keeps its head when
    trimmed on the right. *)
Lemma rstrip_head c t :
  isspace c = false -> exists v, rstrip (c :: t) = c :: v.
Proof.
  intros Hc. unfold rstrip. cbn [rev].
  rewrite lstrip_app_keep by done. rewrite rev_app_distr. cbn. eauto.
Qed.

Lemma rstrip_idempotent s : rstrip (rstrip s) = rstrip s.
Proof. unfold rstrip. by rewrite rev_involutive, lstrip_idempotent. Qed.

Lemma rstrip_last s :
  match last (rstrip s) with
  | None => True
  | Some c => isspace c = false
  end.
Proof.
  unfold rstrip. pose proof (lstrip_head (rev s)) as H.
  destruct (lstrip (rev s)) as [|c u]; [done|].
  cbn [rev]. by rewrite last_snoc.
Qed.

Lemma strip_head s :
  match strip s with
  | [] => True
  | c :: _ => isspace c = false
  end.
Proof.
  unfold strip. pose proof (lstrip_head s) as H.
  destruct (lstrip s) as [|c t]; [done|].
  by destruct (rstrip_head c t H) as [v ->].
Qed.

Lemma strip_idempotent s : strip (strip s) = strip s.
Proof.
  unfold strip at 1. pose proof (strip_head s) as H.
  assert (lstrip (strip s) = strip s) as ->.
  { destruct (strip s) as [|c t]; [done|]. cbn. by rewrite H. }
  unfold strip. apply rstrip_idempotent.
Qed.

(** X9. The text [extract_text_from_pdf] returns is trimmed: it neither
    begins nor ends with white space, and trimming it again changes
    nothing. *)
Theorem extracted_text_is_trimmed (pdf_path : path) (logger : Logger) (w : World)
    (text : pystr) :
  (extract_text_from_pdf pdf_path logger w).1 = Ok text ->
  strip text = text /\
  match text with [] => True | c :: _ => isspace c = false end /\
  match last text with None => True | Some c => isspace c = false end.
Proof.
  rewrite extract_text_from_pdf_spec. cbn. intros [= <-].
  unfold extracted.
  destruct (document_pages pdf_path (w_fs w)) as [pages|e]; [|done].
  destruct (first_fault pages); [done|].
  unfold document_text. repeat split.
  - apply strip_idempotent.
  - apply strip_head.
  - apply rstrip_last.
Qed.

Lemma extracted_text_is_trimmed_witness :
  let text := lit "--- Page 1 ---" ++ nl ++ lit "hello" ++ nl ++
              lit "--- Page 2 (OCR) ---" ++ nl ++ lit "a" ++ nl ++ lit "b" in
  strip text = text /\
  match text with [] => True | c :: _ => isspace c = false end /\
  match last text with None => True | Some c => isspace c = false end.
Proof.
  intros text.
  apply (extracted_text_is_trimmed a_pdf sample_logger sample_world text).
  vm_compute. reflexivity.
Defined.

Lemma marker_head page_num src :
  exists tail, marker page_num src = nl ++ lit "--- Page" ++ tail.
Proof. unfold marker. by eexists (lit " " ++ _). Qed.

Lemma blocks_head pages : forall n,
  concat (blocks n pages) = [] \/
  exists tail, concat (blocks n pages) = nl ++ lit "--- Page" ++ tail.
Proof.
  induction pages as [|page rest IH]; intros n; cbn [blocks concat]; [by left|].
  unfold block. destruct (resolve_page page) as [[src text]|].
  - right. destruct (marker_head n src) as [tail ->].
    exists ((tail ++ text) ++ concat (blocks (S n) rest)).
    by rewrite <- !app_assoc.
  - apply IH.
Qed.

Lemma rstrip_app_keep a c b :
  isspace c = false -> rstrip (a ++ c :: b) = a ++ c :: rstrip b.
Proof.
  intros Hc. unfold rstrip.
  rewrite rev_app_distr. cbn [rev]. rewrite <- app_assoc. cbn [app].
  rewrite lstrip_app_keep by done.
  rewrite rev_app_distr. cbn [rev]. rewrite rev_involutive.
  by rewrite <- app_assoc.
Qed.

Lemma lstrip_first_marker tail :
  lstrip (nl ++ lit "--- Page" ++ tail) = lit "--- Pag" ++ 101%N :: tail.
Proof. reflexivity. Qed.

(** X10. The text [extract_text_from_pdf] returns is empty or begins with
    [--- Page]: the newline that opens the first marker is trimmed away,
    and nothing comes before the first marker. *)
Theorem extracted_text_begins_with_marker (pdf_path : path) (logger : Logger)
    (w : World) (text : pystr) :
  (extract_text_from_pdf pdf_path logger w).1 = Ok text ->
  text = [] \/ exists tail, text = lit "--- Page" ++ tail.
Proof.
  rewrite extract_text_from_pdf_spec. cbn. intros [= <-].
  unfold extracted.
  destruct (document_pages pdf_path (w_fs w)) as [pages|e]; [|by left].
  destruct (first_fault pages); [by left|].
  rewrite document_text_blocks.
  destruct (blocks_head pages 1) as [->|[tail ->]]; [by left|].
  right. unfold strip.
  rewrite lstrip_first_marker, rstrip_app_keep by done.
  by exists (rstrip tail).
Qed.

Lemma extracted_text_begins_with_marker_witness :
  let text := lit "--- Page 1 ---" ++ nl ++ lit "hello" ++ nl ++
              lit "--- Page 2 (OCR) ---" ++ nl ++ lit "a" ++ nl ++ lit "b" in
  text = [] \/ exists tail, text = lit "--- Page" ++ tail.
Proof.
  intros text.
  apply (extracted_text_begins_with_marker a_pdf sample_logger sample_world text).
  vm_compute. reflexivity.
Defined.

(** ** The cost of a document *)

Lemma engine_calls_page n page :
  count is_engine_call (page_events n page) <= if no_direct_text page then 1 else 0.
Proof.
  unfold count, page_events, no_direct_text, ocr_calls, ocr_warning, ocr_outcome,
    no_text_warning, ocr_failed_warning.
  destruct (extract_text page) as [text|e]; cbn; [|lia].
  destruct (has_text text); cbn; [lia|].
  destruct (to_image page 150) as [img|e]; cbn; [|lia].
  destruct (np_array img) as [arr|e]; cbn; [|lia].
  destruct (readtext arr) as [[|r rs]|e]; cbn; lia.
Qed.

Lemma engine_calls_pages pages : forall n,
  count is_engine_call (pages_events n pages) <=
  length (List.filter no_direct_text pages).
Proof.
  induction pages as [|page rest IH]; intros n; cbn [pages_events List.filter].
  - unfold count. cbn. lia.
  - rewrite count_app. pose proof (engine_calls_page n page) as Hp.
    pose proof (IH (S n)) as Hrest.
    destruct (extract_text page) as [text|e] eqn:E.
    + destruct (no_direct_text page); cbn [length]; lia.
    + assert (count is_engine_call [] = 0) as -> by done.
      destruct (no_direct_text page); cbn [length]; lia.
Qed.

(** X11. The extraction of a document calls the OCR engine at most once
    for every page whose direct extraction gives no text, and so not at
    all for a document whose pages all carry text. *)
Theorem engine_calls_bounded (pdf_path : path) (logger : Logger) (w : World)
    (pages : list Page) :
  document_pages pdf_path (w_fs w) = Ok pages ->
  exists evs,
    w_trace (extract_text_from_pdf pdf_path logger w).2 = w_trace w ++ evs /\
    count is_engine_call evs <= length (List.filter no_direct_text pages).
Proof.
  intros Hdoc. exists (extraction_events pdf_path (w_fs w)).
  split; [apply extraction_trace|].
  rewrite (count_extraction_events _ _ _ pages) by done.
  apply engine_calls_pages.
Qed.

Lemma engine_calls_bounded_witness :
  exists evs,
    w_trace (extract_text_from_pdf a_pdf sample_logger sample_world).2 =
      w_trace sample_world ++ evs /\
    count is_engine_call evs <= 3.
Proof.
  apply (engine_calls_bounded a_pdf sample_logger sample_world
           [text_page "hello"; scanned_page [lit "a"; lit "b"];
            scanned_page []; unrenderable_page]).
  reflexivity.
Defined.

(** ** The loop over the files *)

Lemma opened_app t1 t2 : opened (t1 ++ t2) = opened t1 ++ opened t2.
Proof. unfold opened. apply flat_map_app. Qed.

Lemma opened_page_events n page : opened (page_events n page) = [].
Proof.
  unfold page_events, ocr_calls, ocr_warning, no_text_warning, ocr_failed_warning.
  destruct (extract_text page) as [text|e]; [|done].
  destruct (has_text text); [done|]. unfold ocr_outcome.
  destruct (to_image page 150) as [img|e]; [|done].
  destruct (np_array img) as [arr|e]; [|done].
  by destruct (readtext arr) as [[|r rs]|e].
Qed.

Lemma opened_pages_events pages : forall n, opened (pages_events n pages) = [].
Proof.
  induction pages as [|page rest IH]; intros n; cbn [pages_events]; [done|].
  rewrite opened_app, opened_page_events.
  destruct (extract_text page); [apply IH|done].
Qed.

Lemma opened_extraction_events p fs : opened (extraction_events p fs) = [p].
Proof.
  unfold extraction_events.
  change (opened (Called (Call_open p) :: ?l)) with (p :: opened l).
  f_equal. destruct (document_pages p fs) as [pages|e]; [|done].
  rewrite opened_app, opened_pages_events.
  by destruct (first_fault pages).
Qed.

(** Whatever becomes of a file, its document is opened once. *)
Lemma process_file_opened original_dir processed_dir logger i total p w :
  exists evs,
    w_trace (process_file original_dir processed_dir logger i total p w).2 =
      w_trace w ++ evs /\
    opened evs = [p].
Proof.
  rewrite process_file_steps. cbv zeta.
  set (w1 := after _ w). set (out := (path_stem p ++ lit ".txt") :: processed_dir).
  assert (w_trace w1 = w_trace w ++
            processing_event i total p :: extraction_events p (w_fs w)) as H1 by done.
  assert (forall tail,
            opened ((processing_event i total p :: extraction_events p (w_fs w)) ++ tail)
            = p :: opened tail) as Hop.
  { intros tail. rewrite opened_app.
    change (opened (processing_event i total p :: ?l)) with (opened l).
    by rewrite opened_extraction_events. }
  pose proof (write_text_trace out (extracted p (w_fs w)) w1) as Hw.
  destruct (write_text out _ w1) as [[[]|e] w2]; cbn [snd] in Hw.
  - pose proof (shutil_move_trace p (path_name p :: original_dir) w2) as Hm.
    destruct (shutil_move p _ w2) as [[[]|e] w3]; cbn [snd] in Hm |- *.
    + cbn [w_trace after set_trace]. rewrite Hm, Hw, H1, <- !app_assoc.
      eexists. split; [reflexivity|]. by rewrite Hop.
    + rewrite Hm, Hw, H1, <- !app_assoc.
      eexists. split; [reflexivity|]. by rewrite Hop.
  - cbn [snd]. rewrite Hw, H1, <- !app_assoc.
    eexists. split; [reflexivity|]. by rewrite Hop.
Qed.

Lemma files_loop_opened original_dir processed_dir logger total files : forall i w,
  exists evs rest,
    w_trace (files_loop original_dir processed_dir logger i total files w).2 =
      w_trace w ++ evs /\
    files = opened evs ++ rest /\
    ((files_loop original_dir processed_dir logger i total files w).1 = Ok tt ->
     rest = []).
Proof.
  induction files as [|p files IH]; intros i w.
  - exists [], []. cbn. by rewrite app_nil_r.
  - rewrite files_loop_cons.
    destruct (process_file_opened original_dir processed_dir logger i total p w)
      as (evs1 & Ht1 & Ho1).
    destruct (process_file _ _ _ _ _ p w) as [[[]|e] w1]; cbn in Ht1.
    + destruct (IH (S i) w1) as (evs2 & rest & Ht2 & Ho2 & Hok).
      exists (evs1 ++ evs2), rest. rewrite Ht2, Ht1, opened_app, Ho1.
      rewrite <- !app_assoc. split; [done|]. split; [|done].
      cbn. by rewrite <- Ho2.
    + exists evs1, files. rewrite Ho1. by cbn.
Qed.

(** X12. [process_pdfs] opens the documents in the order in which the
    folder listed them when it was called, each once: when it returns, the
    documents opened are those listed; when it raises, they are the first
    of those listed, up to the file on which it raises. *)
Theorem process_pdfs_opens_in_listing_order
    (input_dir original_dir processed_dir : path) (logger : Logger) (w : World) :
  exists evs rest,
    w_trace (process_pdfs input_dir original_dir processed_dir logger w).2 =
      w_trace w ++ evs /\
    glob_pdf input_dir (w_fs w) = opened evs ++ rest /\
    match (process_pdfs input_dir original_dir processed_dir logger w).1 with
    | Ok count => rest = [] /\ count = length (opened evs)
    | Raise _ => True
    end.
Proof.
  unfold process_pdfs, mbind, M_bind, gets, logger_info, record, modify, mret, M_ret.
  set (files := glob_pdf input_dir (w_fs w)).
  set (w1 := after _ w).
  destruct (files_loop_opened original_dir processed_dir logger
              (length files) files 1 w1) as (evs & rest & Ht & Ho & Hok).
  destruct (files_loop _ _ _ _ _ files w1) as [[[]|e] w2]; cbn in Ht, Hok |- *.
  - specialize (Hok eq_refl). subst rest. rewrite app_nil_r in Ho.
    exists (Logged INFO (lit "Found " ++ str_of_nat (length files)
                         ++ lit " PDF file(s). Starting OCR...") :: evs), [].
    split; [by rewrite Ht, <- app_assoc|].
    change (opened (?a :: evs)) with (opened evs).
    rewrite app_nil_r. repeat split; try done. by rewrite Ho at 1.
  - exists (Logged INFO (lit "Found " ++ str_of_nat (length files)
                         ++ lit " PDF file(s). Starting OCR...") :: evs), rest.
    split; [by rewrite Ht, <- app_assoc|].
    by change (opened (?a :: evs)) with (opened evs).
Qed.



(** ** What a batch leaves in [input] *)

Lemma glob_pdf_cons d e fs :
  glob_pdf d (e :: fs) = if glob_match d e then e.1 :: glob_pdf d fs else glob_pdf d fs.
Proof. unfold glob_pdf. cbn [List.filter]. by destruct (glob_match d e). Qed.

Lemma glob_match_parent d q n :
  glob_match d (q, n) = true -> exists x, q = x :: d.
Proof.
  unfold glob_match. cbn [fst]. destruct q as [|x par]; [done|].
  intros [H _]%andb_prop. apply bool_decide_eq_true in H. subst. eauto.
Qed.

Lemma glob_pdf_parent d fs : Forall (fun p => exists x, p = x :: d) (glob_pdf d fs).
Proof.
  induction fs as [|[q n] fs IH]; [constructor|].
  rewrite glob_pdf_cons. destruct (glob_match d (q, n)) eqn:E; [|done].
  constructor; [|done]. by eapply glob_match_parent.
Qed.

(** Writing a file outside [d] does not change what [d] lists. *)
Lemma glob_pdf_put d out n fs :
  (forall n', glob_match d (out, n') = false) ->
  glob_pdf d (fs_put out n fs) = glob_pdf d fs.
Proof.
  intros Hout. unfold fs_put. destruct (fs_exists out fs).
  - induction fs as [|[q m] fs IH]; [done|]. cbn [map].
    unfold at_path at 1. cbn [fst].
    destruct (bool_decide_reflect (q = out)) as [->|Hq].
    + by rewrite !glob_pdf_cons, !Hout.
    + rewrite !glob_pdf_cons, IH. done.
  - rewrite glob_pdf_app. unfold glob_pdf at 2. cbn [List.filter].
    by rewrite Hout, app_nil_r.
Qed.

(** Renaming an entry of [d] to a place outside [d] takes it off the list
    of [d] and leaves the rest of that list. *)
Lemma glob_pdf_rename d (p dst : path) fs :
  p <> dst ->
  (forall q n, glob_match d (q, n) = true -> ¬ dst `suffix_of` q) ->
  (forall k n, glob_match d (k ++ dst, n) = false) ->
  (forall q n, glob_match d (q, n) = true -> p `suffix_of` q -> q = p) ->
  glob_pdf d (fs_rename p dst fs) =
  List.filter (fun q => negb (bool_decide (q = p))) (glob_pdf d fs).
Proof.
  intros Hne Hd1 Hd2 Hp. unfold fs_rename.
  rewrite bool_decide_eq_false_2 by done.
  induction fs as [|[q n] fs IH]; [done|].
  cbn [List.filter fst]. rewrite (glob_pdf_cons d (q, n)). cbn [fst].
  destruct (glob_match d (q, n)) eqn:E;
    (destruct (within dst q) eqn:Hw; cbn [negb];
     [apply within_true in Hw|
      cbn [map]; rewrite glob_pdf_cons; cbn [fst snd];
      destruct (decide (p `suffix_of` q)) as [Hs|Hs];
      [pose proof Hs as [k Hk]; rewrite Hk, rebase_within, Hd2; try rewrite <- Hk|
       rewrite rebase_outside, E by done]]).
  - by destruct (Hd1 _ _ E).
  - rewrite (Hp _ _ E Hs). cbn [List.filter].
    by rewrite bool_decide_eq_true_2.
  - cbn [List.filter]. rewrite bool_decide_eq_false_2 by (by intros ->).
    cbn [negb]. by rewrite IH.
  - exact IH.
  - exact IH.
  - exact IH.
Qed.

(** The file system a file leaves when [process_file] returns. *)
Lemma process_file_ok_fs original_dir processed_dir logger i total p w w' :
  process_file original_dir processed_dir logger i total p w = (Ok tt, w') ->
  let out := (path_stem p ++ lit ".txt") :: processed_dir in
  exists dst,
    (dst = path_name p :: original_dir \/
     dst = path_name p :: path_name p :: original_dir) /\
    w_fs w' =
      fs_rename p dst
        (fs_put out (File (Text (extracted p (w_fs w))))
           (fs_put out (File (Text [])) (w_fs w))).
Proof.
  rewrite process_file_steps. cbv zeta. rewrite write_text_steps. cbv zeta.
  match goal with |- context [open_result ?o ?w0] =>
    destruct (open_result o w0) as [[]|e]
  end; [|done].
  destruct (utf8_encodable _); [|done].
  rewrite shutil_move_steps. cbv zeta. rewrite !os_rename_steps.
  cbn [w_fs set_fs after set_trace].
  destruct (fs_is_dir _ _); [destruct (fs_exists _ _); [done|]|];
    match goal with |- context [rename_result ?a ?b ?c] =>
      destruct (rename_result a b c) as [[]|?]
    end; try done; intros [= <-]; cbn [w_fs set_fs after set_trace]; eauto.
Qed.

Lemma filter_filter_andb {A} (f g : A -> bool) l :
  List.filter f (List.filter g l) = List.filter (fun x => g x && f x) l.
Proof.
  induction l as [|x l IH]; [done|]. cbn.
  destruct (g x); cbn; [destruct (f x)|]; by rewrite IH.
Qed.

Lemma filter_none {A} (f : A -> bool) l :
  Forall (fun x => f x = false) l -> List.filter f l = [].
Proof. induction 1 as [|x l Hx _ IH]; [done|]. cbn. by rewrite Hx. Qed.

Lemma suffix_same_length {A} (l1 l2 : list A) :
  l1 `suffix_of` l2 -> length l1 = length l2 -> l2 = l1.
Proof.
  intros [k ->] H. rewrite length_app in H. destruct k; [done|]. cbn in H. lia.
Qed.

(** One file less in [d] for every file processed, when the folders of the
    originals and of the texts lie deeper than [d]. *)
Lemma process_file_glob d original_dir processed_dir logger i total x w w' :
  length d < length original_dir ->
  length d < length processed_dir ->
  process_file original_dir processed_dir logger i total (x :: d) w = (Ok tt, w') ->
  glob_pdf d (w_fs w') =
  List.filter (fun q => negb (bool_decide (q = x :: d))) (glob_pdf d (w_fs w)).
Proof.
  intros Ho Hp H.
  destruct (process_file_ok_fs _ _ _ _ _ _ _ _ H) as (dst & Hdst & ->).
  assert (S (length d) < length dst) as Hlen by (destruct Hdst as [->| ->]; cbn; lia).
  rewrite glob_pdf_rename.
  - rewrite !glob_pdf_put; [done|..]; intros n'; unfold glob_match; cbn [fst];
      rewrite bool_decide_eq_false_2; try done; intros Heq; rewrite Heq in Hp; lia.
  - intros Heq. rewrite <- Heq in Hlen. cbn in Hlen. lia.
  - intros q n [y ->]%glob_match_parent Hs%suffix_length. cbn in Hs. lia.
  - intros k n. destruct (glob_match d (k ++ dst, n)) eqn:E; [|done].
    apply glob_match_parent in E as [y E]. apply (f_equal length) in E.
    rewrite length_app in E. cbn in E. lia.
  - intros q n [y ->]%glob_match_parent Hs. by apply suffix_same_length.
Qed.

Lemma files_loop_glob d original_dir processed_dir logger total files : forall i w w',
  length d < length original_dir ->
  length d < length processed_dir ->
  Forall (fun p => exists x, p = x :: d) files ->
  files_loop original_dir processed_dir logger i total files w = (Ok tt, w') ->
  glob_pdf d (w_fs w') =
  List.filter (fun q => forallb (fun p => negb (bool_decide (q = p))) files)
              (glob_pdf d (w_fs w)).
Proof.
  induction files as [|p files IH]; intros i w w' Ho Hp Hfiles.
  - intros [= <-]. cbn. induction (glob_pdf d (w_fs w)); [done|]. cbn. by f_equal.
  - rewrite files_loop_cons. inversion Hfiles as [|? ? [x ->] Hrest]; subst.
    destruct (process_file _ _ _ _ _ (x :: d) w) as [[[]|e] w1] eqn:E; [|done].
    intros H. rewrite (IH _ _ _ Ho Hp Hrest H).
    rewrite (process_file_glob _ _ _ _ _ _ _ _ _ Ho Hp E).
    by rewrite filter_filter_andb.
Qed.

(** X14. In the folders [main] makes, when [process_pdfs] returns, [input]
    lists no PDF file any more: every file found has been moved away. *)
Theorem process_pdfs_empties_input (timestamp : pystr) (logger : Logger)
    (w w' : World) (count : nat) :
  process_pdfs (Path "input")
    (lit "original" :: timestamp :: Path "output")
    (lit "processed" :: timestamp :: Path "output") logger w = (Ok count, w') ->
  glob_pdf (Path "input") (w_fs w') = [].
Proof.
  unfold process_pdfs, mbind, M_bind, gets, logger_info, record, modify, mret, M_ret.
  set (files := glob_pdf (Path "input") (w_fs w)).
  set (w1 := after _ w).
  destruct (files_loop _ _ _ _ _ files w1) as [[[]|e] w2] eqn:E; [|done].
  intros [= _ <-].
  assert (length (Path "input") < length (lit "original" :: timestamp :: Path "output"))
    as Ho by (unfold Path; cbn; lia).
  assert (length (Path "input") < length (lit "processed" :: timestamp :: Path "output"))
    as Hp by (unfold Path; cbn; lia).
  rewrite (files_loop_glob (Path "input") _ _ _ _ _ _ _ _ Ho Hp
             (glob_pdf_parent _ _) E).
  change (w_fs w1) with (w_fs w). fold files.
  apply filter_none, Forall_forall. intros q Hq.
  apply not_true_iff_false. rewrite forallb_forall. intros Hall.
  apply list_elem_of_In in Hq.
  specialize (Hall q Hq). by rewrite bool_decide_eq_true_2 in Hall.
Qed.

Lemma process_pdfs_empties_input_witness :
  glob_pdf (Path "input")
    (w_fs (process_pdfs (Path "input")
             (lit "original" :: lit "20240101_120000" :: Path "output")
             (lit "processed" :: lit "20240101_120000" :: Path "output")
             sample_logger prepared_world).2) = [].
Proof.
  apply (process_pdfs_empties_input (lit "20240101_120000") sample_logger
           prepared_world _ 3).
  vm_compute. reflexivity.
Defined.

(** ** The name of the text file *)

Lemma rfind_app c s t :
  rfind c (s ++ t) =
  match rfind c t with
  | Some i => Some (length s + i)
  | None => rfind c s
  end.
Proof.
  induction s as [|x s IH]; cbn [app rfind length].
  - by destruct (rfind c t).
  - rewrite IH. by destruct (rfind c t).
Qed.

Lemma endswith_inv n t :
  endswith n t = true -> exists s, n = s ++ t.
Proof.
  unfold endswith. intros H%bool_decide_eq_true.
  set (k := length n - length t) in *.
  exists (take k n). rewrite <- H. by rewrite take_drop.
Qed.

Lemma path_stem_pdf s d :
  path_stem ((s ++ lit ".pdf") :: d) =
  match s with
  | [] => lit ".pdf"
  | _ :: _ => s
  end.
Proof.
  unfold path_stem. cbn [path_name]. rewrite rfind_app.
  change (rfind 46%N (lit ".pdf")) with (Some 0). cbv beta iota.
  rewrite Nat.add_0_r.
  destruct s as [|c s]; [done|].
  rewrite bool_decide_eq_true_2.
  - by rewrite take_app_length.
  - rewrite length_app. change (length (lit ".pdf")) with 4. cbn. lia.
Qed.

(** X15. Every file the folder lists is named [s.pdf] for some [s], and
    its text file is named [s.txt]; the one exception is a file named
    [.pdf], for which [s] is empty: its text file is named [.pdf.txt]. *)
Theorem text_file_name (d : path) (fs : FS) (pdf_path : path) :
  pdf_path ∈ glob_pdf d fs ->
  exists s,
    pdf_path = (s ++ lit ".pdf") :: d /\
    path_stem pdf_path ++ lit ".txt" =
      match s with
      | [] => lit ".pdf.txt"
      | _ :: _ => s ++ lit ".txt"
      end.
Proof.
  unfold glob_pdf. intros Hin. apply list_elem_of_In in Hin.
  apply in_map_iff in Hin as ([q n] & <- & Hin).
  apply filter_In in Hin as [_ Hm]. cbn [fst].
  unfold glob_match in Hm. cbn [fst] in Hm. destruct q as [|name par]; [done|].
  apply andb_prop in Hm as [Hpar Hend]. apply bool_decide_eq_true in Hpar. subst par.
  apply endswith_inv in Hend as [s ->]. exists s. split; [done|].
  rewrite path_stem_pdf. by destruct s.
Qed.

Lemma text_file_name_witness :
  exists s,
    a_pdf = (s ++ lit ".pdf") :: Path "input" /\
    path_stem a_pdf ++ lit ".txt" =
      match s with
      | [] => lit ".pdf.txt"
      | _ :: _ => s ++ lit ".txt"
      end.
Proof.
  apply (text_file_name (Path "input") sample_fs a_pdf).
  vm_compute. apply list_elem_of_here.
Defined.

(** ** The run as a whole *)

Lemma glob_pdf_not_listed d extra :
  Forall (fun e => glob_match d e = false) extra -> glob_pdf d extra = [].
Proof.
  induction 1 as [|e extra He _ IH]; [done|]. by rewrite glob_pdf_cons, He.
Qed.

Lemma made_for_not_listed x timestamp e :
  made_for (x :: timestamp :: Path "output") e ->
  glob_match (Path "input") e = false.
Proof.
  destruct e as [q n]. intros (_ & Hq & Hs). cbn [fst] in *.
  unfold glob_match. cbn [fst]. destruct q as [|y par]; [done|].
  rewrite bool_decide_eq_false_2; [done|]. intros ->. revert Hs. paths_differ.
Qed.

Lemma get_timestamp_folder_not_listed :
  creates (fun e => glob_match (Path "input") e = false) no_event
          (get_timestamp_folder (Path "output")).
Proof.
  unfold get_timestamp_folder.
  apply creates_bind; [apply creates_gets|]. intros timestamp.
  apply creates_bind; [|intros _; apply creates_bind; [|intros _; apply creates_ret]];
    (eapply creates_weaken; [| |apply Path_mkdir_creates]; [|done]);
    apply made_for_not_listed.
Qed.

(** X16. When EasyOCR is loaded, [input] lists one PDF file at least and
    [main] returns, the run ends with the record of completion, which
    carries the number of PDF files that [input] listed when the run
    began, and with the record that names the folder of the run. *)
Theorem main_reports_count (w : World) :
  lit "easyocr" ∈ w_sys_modules w ->
  glob_pdf (Path "input") (w_fs w) <> [] ->
  (main w).1 = Ok tt ->
  exists evs,
    w_trace (main w).2 =
    w_trace w ++ evs ++
    [Logged INFO (completed_message (length (glob_pdf (Path "input") (w_fs w))));
     Logged INFO (lit "Results saved to: " ++ w_now w ++ lit "/")].
Proof.
  intros Hloaded Hglob.
  destruct (setup_folders_creates w) as (ex1 & evs1 & Hw1 & Hex1 & Hevs1).
  apply no_event_nil in Hevs1 as ->. rewrite after_nil in Hw1.
  destruct (setup_folders w) as [[dirs|e1] w1] eqn:E1; cbn in Hw1; subst w1.
  2: { by rewrite (main_setup_raises _ _ _ E1). }
  pose proof (setup_folders_result w dirs) as Hres.
  rewrite E1 in Hres. specialize (Hres eq_refl). subst dirs.
  assert (glob_pdf (Path "input") (w_fs (grow ex1 w)) = glob_pdf (Path "input") (w_fs w))
    as Hglob1.
  { change (w_fs (grow ex1 w)) with (w_fs w ++ ex1).
    by rewrite glob_pdf_app, (glob_pdf_top_folders ex1 Hex1), app_nil_r. }
  rewrite (main_with_files _ _ E1) by (by rewrite Hglob1).
  destruct (get_timestamp_folder_not_listed (grow ex1 w))
    as (ex2 & evs2 & Hw2 & Hex2 & Hevs2).
  apply no_event_nil in Hevs2 as ->. rewrite after_nil, grow_grow in Hw2.
  pose proof (get_timestamp_folder_result (Path "output") (grow ex1 w)) as Hres.
  destruct (get_timestamp_folder (Path "output") (grow ex1 w))
    as [[dirs|e2] w2]; cbn in Hw2; subst w2; [|done].
  specialize (Hres _ eq_refl). subst dirs.
  change (w_now (grow ex1 w)) with (w_now w).
  cbv beta iota delta [tail].
  set (timestamp_dir := w_now w :: Path "output").
  destruct (setup_logging_creates timestamp_dir (grow (ex1 ++ ex2) w))
    as (ex3 & evs3 & Hw3 & Hex3 & Hevs3).
  apply no_event_nil in Hevs3 as ->. rewrite after_nil, grow_grow in Hw3.
  destruct (setup_logging timestamp_dir (grow (ex1 ++ ex2) w))
    as [[logger|e3] w3]; cbn in Hw3; subst w3; [|done].
  rewrite check_dependencies_loaded by done.
  rewrite after_after.
  match goal with |- context [process_pdfs ?a ?b ?c ?d ?w0] =>
    pose proof (process_pdfs_count a b c d w0) as Hcount;
    destruct (process_pdfs_emits a b c d w0) as (evs & Hevs & _);
    destruct (process_pdfs a b c d w0) as [[count|e] w5]
  end; [|done].
  intros _. cbn in Hevs.
  change (count = length (glob_pdf (Path "input") (w_fs w ++ (ex1 ++ ex2) ++ ex3)))
    in Hcount.
  assert (count = length (glob_pdf (Path "input") (w_fs w))) as ->.
  { rewrite Hcount, !glob_pdf_app, (glob_pdf_top_folders ex1 Hex1).
    rewrite (glob_pdf_not_listed _ ex2 Hex2).
    rewrite (glob_pdf_not_listed _ ex3); [by rewrite !app_nil_r|].
    eapply Forall_impl; [exact Hex3|]. intros entry ->.
    unfold glob_match. cbn [fst].
    rewrite bool_decide_eq_false_2; [done|].
    intros H. apply (f_equal length) in H. discriminate H. }
  cbn [snd w_trace after set_trace closing_events path_name].
  match type of Hevs with _ = (_ ++ ?pre) ++ evs => exists (pre ++ evs) end.
  rewrite Hevs. unfold timestamp_dir. by rewrite <- !app_assoc.
Qed.

Lemma main_reports_count_witness :
  exists evs,
    w_trace (main loaded_world).2 =
    w_trace loaded_world ++ evs ++
    [Logged INFO (completed_message
                    (length (glob_pdf (Path "input") (w_fs loaded_world))));
     Logged INFO (lit "Results saved to: " ++ w_now loaded_world ++ lit "/")].
Proof.
  apply (main_reports_count loaded_world).
  - unfold loaded_world, imports. cbn [w_sys_modules].
    rewrite !elem_of_cons. tauto.
  - vm_compute. discriminate.
  - vm_compute. reflexivity.
Defined.

Lemma py_import_elsewhere name w :
  w_fs (py_import name w).2 = w_fs w /\
  w_trace (py_import name w).2 = w_trace w /\
  w_site (py_import name w).2 = w_site w /\
  forall n, n <> name -> n ∉ w_sys_modules w -> n ∉ w_sys_modules (py_import name w).2.
Proof.
  unfold py_import. destruct (bool_decide _); [done|].
  destruct (find _ _) as [[m [[]|e']]|]; cbn; repeat split; try done.
  intros n Hn Hnot [H|H%list_elem_of_singleton]%elem_of_app; done.
Qed.

Lemma py_import_not_installed name w :
  name ∉ w_sys_modules w ->
  find (fun m : pystr * result unit => bool_decide (m.1 = name)) (w_site w) = None ->
  py_import name w = (Raise (Exn ModuleNotFoundError (lit "No module named " ++ name)), w).
Proof.
  intros Hnot Hsite. unfold py_import.
  by rewrite bool_decide_eq_false_2, Hsite.
Qed.

(** A chain of imports with a module that is neither loaded nor installed
    raises, and leaves the files and the trace as they were. *)
Lemma imports_raise name post before : forall w,
  name ∉ before ->
  name ∉ w_sys_modules w ->
  find (fun m : pystr * result unit => bool_decide (m.1 = name)) (w_site w) = None ->
  exists e w',
    foldr (fun name rest => py_import name;; rest) (mret tt)
          (before ++ name :: post) w = (Raise e, w') /\
    w_fs w' = w_fs w /\ w_trace w' = w_trace w.
Proof.
  induction before as [|b before IH]; intros w Hb Hnot Hsite; cbn [app foldr].
  - unfold mbind, M_bind. rewrite py_import_not_installed by done. eauto.
  - unfold mbind at 1, M_bind at 1.
    destruct (py_import_elsewhere b w) as (Hfs & Htr & Hst & Hmod).
    apply not_elem_of_cons in Hb as [Hne Hb].
    destruct (py_import b w) as [[[]|e] w1]; cbn in *; [|eauto].
    destruct (IH w1 Hb) as (e & w' & -> & Hfs' & Htr'); [auto|by rewrite Hst|].
    exists e, w'. by rewrite Hfs', Htr'.
Qed.

(** X17. When EasyOCR is neither loaded nor installed, the script raises
    while the module is loaded: [main] is not called, no folder is made,
    no file is touched and nothing is logged or printed. *)
Theorem script_without_easyocr (w : World) :
  lit "easyocr" ∉ w_sys_modules w ->
  find (fun m : pystr * result unit => bool_decide (m.1 = lit "easyocr")) (w_site w)
    = None ->
  exists e w',
    script w = (Raise e, w') /\ w_fs w' = w_fs w /\ w_trace w' = w_trace w.
Proof.
  intros Hnot Hsite.
  destruct (imports_raise (lit "easyocr")
              [lit "pdfplumber"; lit "PIL"; lit "io"; lit "numpy"]
              [lit "logging"; lit "shutil"; lit "datetime"; lit "pathlib"] w)
    as (e & w' & H & Hfs & Htr); [|done..|].
  { rewrite !elem_of_cons, elem_of_nil. intros [H|[H|[H|[H|[]]]]]; cbv in H; discriminate H. }
  exists e, w'. split; [|done].
  unfold script, module_top, imports. unfold mbind at 1 2, M_bind at 1 2.
  cbn [app] in H. by rewrite H.
Qed.

Lemma script_without_easyocr_witness :
  exists e w',
    script world_easyocr_not_installed = (Raise e, w') /\
    w_fs w' = w_fs world_easyocr_not_installed /\
    w_trace w' = w_trace world_easyocr_not_installed.
Proof.
  apply (script_without_easyocr world_easyocr_not_installed).
  - vm_compute. apply elem_of_nil.
  - reflexivity.
Defined.

(** In that world the exception is the one of the import of EasyOCR. *)
Example script_without_easyocr_exception :
  (script world_easyocr_not_installed).1 =
  Raise (Exn ModuleNotFoundError (lit "No module named easyocr")).
Proof. vm_compute. reflexivity. Qed.
